(** * Smart-money scanner dashboard: the client logic of [public/app.js]

    A shallow embedding of the dashboard's three asynchronous operations
    ([fetchHome], [fetchStocks], [showStockDetail]) and of its event
    handlers, over

    - JavaScript Numbers as IEEE 754 binary64 values (Rocq's primitive
      floats), with [Number.prototype.toFixed], [Number::toString] and
      [StringToNumber] written out from ECMA-262;
    - the values [response.json()] can produce (the JSON data model), with
      JavaScript's property access, truthiness and coercions on them;
    - the page as a record of the element properties the script writes,
      threaded through a state-and-exception monad.

    Strings are byte strings: a JavaScript string is represented by its
    UTF-8 encoding. *)

From Stdlib Require Import ZArith String Ascii List Bool Lia DecimalString.
From Stdlib Require Import Uint63 PrimFloat FloatOps SpecFloat.
Import ListNotations.

Local Open Scope string_scope.
Local Open Scope Z_scope.

(** ** JavaScript Numbers *)

Module JSNumber.

(** Exact non-negative rationals, as a numerator over a positive
    denominator; the conversions below decide everything on these, so no
    rounding happens outside [PrimFloat]'s own operations. *)
Definition frac : Type := Z * Z.

Definition of_bin (m e : Z) : frac :=
  if 0 <=? e then (m * 2 ^ e, 1) else (m, 2 ^ (- e)).

Definition times10 (q : frac) (t : Z) : frac :=
  if 0 <=? t then (fst q * 10 ^ t, snd q) else (fst q, snd q * 10 ^ (- t)).

Definition leq (a b : frac) : bool := fst a * snd b <=? fst b * snd a.
Definition ltq (a b : frac) : bool := fst a * snd b <? fst b * snd a.
Definition floorq (a : frac) : Z := fst a / snd a.
Definition distance (a b : frac) : frac :=
  (Z.abs (fst a * snd b - fst b * snd a), snd a * snd b).

(** The integer nearest to [q], the larger one on a tie (toFixed, step 10.a). *)
Definition round_half_up (q : frac) : Z := (2 * fst q + snd q) / (2 * snd q).

Definition decimal (n : Z) : string :=
  NilZero.string_of_uint (N.to_uint (Z.to_N n)).

Fixpoint zeros (n : nat) : string :=
  match n with
  | O => ""
  | S n' => String "0" (zeros n')
  end.

(** *** Number::toString (radix 10), ECMA-262 6.1.6.1.20 *)

(** The reals that round to the binary64 value [m * 2^e] (ties to even):
    the bounds are the midpoints to the neighbouring values, and belong to
    the set exactly when [m] is even. *)
Definition interval (m e : Z) : frac * frac * bool :=
  let lo := if (m =? 2 ^ 52) && (-1074 <? e)
            then of_bin (4 * m - 1) (e - 2)
            else of_bin (2 * m - 1) (e - 1) in
  (lo, of_bin (2 * m + 1) (e - 1), Z.even m).

Definition inside (iv : frac * frac * bool) (v : frac) : bool :=
  let '(lo, hi, closed) := iv in
  if closed then leq lo v && leq v hi else ltq lo v && ltq v hi.

(** The [n] with [10^(n-1) <= x < 10^n], from an estimate by [log2]. *)
Fixpoint lower (fuel : nat) (x : frac) (n : Z) : Z :=
  match fuel with
  | O => n
  | S fuel' => if ltq x (times10 (1, 1) (n - 1)) then lower fuel' x (n - 1) else n
  end.

Fixpoint raise (fuel : nat) (x : frac) (n : Z) : Z :=
  match fuel with
  | O => n
  | S fuel' => if leq (times10 (1, 1) n) x then raise fuel' x (n + 1) else n
  end.

Definition magnitude (m e : Z) : Z :=
  let x := of_bin m e in
  raise 4 x (lower 4 x (((Z.log2 m + e) * 30103) / 100000 + 1)).

(** The [(n, s)] with [10^(k-1) <= s < 10^k] and [s * 10^(n-k)] rounding
    to [x]: for each [n] only the two multiples of [10^(n-k)] around [x]
    can qualify. *)
Definition candidates (x : frac) (iv : frac * frac * bool) (n0 k : Z)
  : list (Z * Z) :=
  flat_map
    (fun n =>
       let sl := floorq (times10 x (k - n)) in
       filter (fun ns => (10 ^ (k - 1) <=? snd ns) && (snd ns <? 10 ^ k)
                         && inside iv (times10 (snd ns, 1) (n - k)))
              [(n, sl); (n, sl + 1)])
    [n0; n0 + 1].

(** Closest to [x] first; of two equally close, the even [s]. *)
Definition better (x : frac) (k : Z) (a b : Z * Z) : bool :=
  let da := distance (times10 (snd a, 1) (fst a - k)) x in
  let db := distance (times10 (snd b, 1) (fst b - k)) x in
  ltq da db || (leq da db && Z.even (snd a) && negb (Z.even (snd b))).

Definition pick (x : frac) (k : Z) (l : list (Z * Z)) : option (Z * Z) :=
  fold_left (fun acc c => match acc with
                          | None => Some c
                          | Some a => if better x k c a then Some c else Some a
                          end) l None.

(** The least [k] that has a candidate; seventeen digits always identify a
    binary64 value, so the fuel is never exhausted from [k = 1]. *)
Fixpoint shortest (fuel : nat) (x : frac) (iv : frac * frac * bool) (n0 k : Z)
  : Z * Z * Z :=
  match fuel with
  | O => (n0, k, floorq (times10 x (k - n0)))
  | S fuel' =>
      match pick x k (candidates x iv n0 k) with
      | Some (n, s) => (n, k, s)
      | None => shortest fuel' x iv n0 (k + 1)
      end
  end.

Definition exponent_part (n : Z) : string :=
  String "e" ((if 0 <=? n - 1 then "+" else "-") ++ decimal (Z.abs (n - 1))).

Definition notation (n k s : Z) : string :=
  let ds := decimal s in
  if (k <=? n) && (n <=? 21) then ds ++ zeros (Z.to_nat (n - k))
  else if (0 <? n) && (n <=? 21) then
    substring 0 (Z.to_nat n) ds ++ String "." (substring (Z.to_nat n) (Z.to_nat (k - n)) ds)
  else if (-6 <? n) && (n <=? 0) then
    String "0" (String "." (zeros (Z.to_nat (- n)) ++ ds))
  else if k =? 1 then ds ++ exponent_part n
  else substring 0 1 ds
       ++ String "." (substring 1 (Z.to_nat (k - 1)) ds ++ exponent_part n).

(** The digits of the positive finite value [m * 2^e]. *)
Definition toString_pos (m e : Z) : string :=
  let '(n, k, s) := shortest 17 (of_bin m e) (interval m e) (magnitude m e) 1 in
  notation n k s.

Definition toString (x : float) : string :=
  match Prim2SF x with
  | S754_nan => "NaN"
  | S754_zero _ => "0"
  | S754_infinity s => if s then "-Infinity" else "Infinity"
  | S754_finite s m e => (if s then "-" else "") ++ toString_pos (Zpos m) e
  end.

(** *** Number.prototype.toFixed, ECMA-262 21.1.3.3

    [f] is the fractionDigits argument; the script only passes 1 and 2, so
    the RangeError for an argument outside 0..100 is not modelled. *)
Definition fixed_notation (n : Z) (f : nat) : string :=
  let m := decimal n in
  match f with
  | O => m
  | S _ =>
      let m' := if (String.length m <=? f)%nat
                then zeros (f + 1 - String.length m) ++ m else m in
      let k := String.length m' in
      substring 0 (k - f) m' ++ String "." (substring (k - f) f m')
  end.

Definition toFixed (x : float) (f : nat) : string :=
  match Prim2SF x with
  | S754_nan => "NaN"
  | S754_infinity s => if s then "-Infinity" else "Infinity"
  | S754_zero _ => fixed_notation 0 f
  | S754_finite s m e =>
      let q := of_bin (Zpos m) e in
      (if s then "-" else "")
      ++ (if leq (10 ^ 21, 1) q then toString_pos (Zpos m) e
          else fixed_notation (round_half_up (times10 q (Z.of_nat f))) f)
  end.

(** *** StringToNumber, ECMA-262 7.1.4.1.1

    The string's numeric value, rounded to the nearest binary64 value
    (ties to even); [NaN] when the string is not a StringNumericLiteral. *)

Definition code (c : ascii) : Z := Z.of_N (N_of_ascii c).

(** One StrWhiteSpaceChar at the head of [s], in its UTF-8 encoding: TAB,
    LF, VT, FF, CR, SP, U+00A0, U+1680, U+2000..U+200A, U+2028, U+2029,
    U+202F, U+205F, U+3000 and U+FEFF. *)
Definition strip_space (s : string) : option string :=
  match s with
  | String a r =>
      if ((9 <=? code a) && (code a <=? 13)) || (code a =? 32) then Some r
      else
        match r with
        | String b r2 =>
            if (code a =? 194) && (code b =? 160) then Some r2
            else
              match r2 with
              | String c r3 =>
                  let three x y lo hi :=
                    (code a =? x) && (code b =? y)
                    && (lo <=? code c) && (code c <=? hi) in
                  if three 225 154 128 128 || three 226 128 128 138
                     || three 226 128 168 169 || three 226 128 175 175
                     || three 226 129 159 159 || three 227 128 128 128
                     || three 239 187 191 191
                  then Some r3 else None
              | EmptyString => None
              end
        | EmptyString => None
        end
  | EmptyString => None
  end.

Fixpoint skip_spaces (fuel : nat) (s : string) : string :=
  match fuel with
  | O => s
  | S fuel' =>
      match strip_space s with
      | Some r => skip_spaces fuel' r
      | None => s
      end
  end.

Definition trim_start (s : string) : string := skip_spaces (String.length s) s.

Definition blank (s : string) : bool :=
  match trim_start s with
  | EmptyString => true
  | String _ _ => false
  end.

Definition digit_value (c : ascii) : option Z :=
  let n := code c in
  if (48 <=? n) && (n <=? 57) then Some (n - 48)
  else if (97 <=? n) && (n <=? 102) then Some (n - 87)
  else if (65 <=? n) && (n <=? 70) then Some (n - 55)
  else None.

(** The longest run of digits of [base] at the head of [s], accumulated
    onto [acc]: the value, how many digits were read, and the rest. *)
Fixpoint digits (base : Z) (s : string) (acc count : Z) : Z * Z * string :=
  match s with
  | String c r =>
      match digit_value c with
      | Some d => if d <? base then digits base r (acc * base + d) (count + 1)
                  else (acc, count, s)
      | None => (acc, count, s)
      end
  | EmptyString => (acc, count, s)
  end.

Definition round_integer (n : Z) : float :=
  SF2Prim (binary_normalize prec emax n 0 false).

(** [d * 10^e] rounded; the two early exits only keep the powers of ten
    small, far beyond the range of binary64 on either side. *)
Definition round_decimal (d e : Z) : float :=
  if d =? 0 then zero
  else
    let mag := Z.log2 d * 30103 / 100000 + e in
    if 400 <? mag then infinity
    else if mag <? -400 then zero
    else if 0 <=? e then round_integer (d * 10 ^ e)
    else SF2Prim (SFdiv prec emax (S754_finite false (Z.to_pos d) 0)
                        (S754_finite false (Z.to_pos (10 ^ (- e))) 0)).

Definition starts_with (p s : string) : bool := String.prefix p s.

Definition drop (n : nat) (s : string) : string :=
  substring n (String.length s - n) s.

(** ExponentPart, when there is one: [None] for an exponent indicator
    that no digit follows. *)
Definition exponent (s : string) : option (Z * string) :=
  match s with
  | String c r =>
      if (code c =? 101) || (code c =? 69) then
        let '(neg, r1) :=
          match r with
          | String g r' => if code g =? 43 then (false, r')
                           else if code g =? 45 then (true, r')
                           else (false, r)
          | EmptyString => (false, r)
          end in
        let '(v, n, r2) := digits 10 r1 0 0 in
        if n =? 0 then None else Some (if neg then - v else v, r2)
      else Some (0, s)
  | EmptyString => Some (0, s)
  end.

(** StrUnsignedDecimalLiteral at the head of [s]. *)
Definition unsigned_decimal (s : string) : option (float * string) :=
  if starts_with "Infinity" s then Some (infinity, drop 8 s)
  else
    let '(i, ni, r) := digits 10 s 0 0 in
    let '(d, nf, r1) :=
      match r with
      | String c r' => if code c =? 46 then digits 10 r' i 0 else (i, 0, r)
      | EmptyString => (i, 0, r)
      end in
    if ni + nf =? 0 then None
    else
      match exponent r1 with
      | Some (e, r2) => Some (round_decimal d (e - nf), r2)
      | None => None
      end.

(** StrNumericLiteral at the head of [s]: a binary, octal or hexadecimal
    integer, or a signed decimal. *)
Definition numeric_literal (s : string) : option (float * string) :=
  let radix p b :=
    if starts_with p s then
      let '(v, n, r) := digits b (drop 2 s) 0 0 in
      if n =? 0 then None else Some (round_integer v, r)
    else None in
  let based := [radix "0x" 16; radix "0X" 16; radix "0o" 8; radix "0O" 8;
                radix "0b" 2; radix "0B" 2] in
  if existsb (fun p => starts_with p s) ["0x"; "0X"; "0o"; "0O"; "0b"; "0B"]
  then hd None (filter (fun o => match o with Some _ => true | None => false end) based)
  else
    match s with
    | String g r =>
        if code g =? 43 then unsigned_decimal r
        else if code g =? 45 then
          match unsigned_decimal r with
          | Some (x, r') => Some (PrimFloat.opp x, r')
          | None => None
          end
        else unsigned_decimal s
    | EmptyString => None
    end.

Definition StringToNumber (s : string) : float :=
  match trim_start s with
  | EmptyString => zero
  | String _ _ as t =>
      match numeric_literal t with
      | Some (x, rest) => if blank rest then x else nan
      | None => nan
      end
  end.

End JSNumber.

(** ** The values of the script *)

(** What [response.json()] resolves to, and what the script computes from
    it. An object is the list of its own properties (its keys are
    distinct, as [JSON.parse] leaves them); [VUndef] is what reading a
    missing property gives. *)
#[local] Set Warnings "-register-all".

Inductive value : Type :=
| VUndef
| VNull
| VBool (b : bool)
| VNum (x : float)
| VStr (s : string)
| VArr (items : list value)
| VObj (fields : list (string * value)).

(** [TypeError] is JavaScript's own; the other two are the rejections of
    [fetch] (the request did not complete) and of [response.json()] (the
    body is not JSON). *)
Inductive exn : Type := TypeError | NetworkError | DecodeError.

Inductive result (A : Type) : Type :=
| Ok (a : A)
| Throw (e : exn).
Arguments Ok {A} a.
Arguments Throw {A} e.

Definition rbind {A B : Type} (r : result A) (k : A -> result B) : result B :=
  match r with
  | Ok a => k a
  | Throw e => Throw e
  end.

Declare Scope js_scope.
Delimit Scope js_scope with js.
Notation "'let*' x ':=' r 'in' k" := (rbind r (fun x => k))
  (at level 10, x name, r at level 100, k at level 200) : js_scope.
Local Open Scope js_scope.

Module JS.

Fixpoint lookup (fields : list (string * value)) (key : string) : value :=
  match fields with
  | [] => VUndef
  | (k, v) :: rest => if String.eqb k key then v else lookup rest key
  end.

Definition has_own (fields : list (string * value)) (key : string) : bool :=
  existsb (fun kv => String.eqb (fst kv) key) fields.

(** [v.key], for a [key] that no built-in prototype defines and that is
    not an array index or [length]: every property name the script reads
    from the response is of this kind. Reading from [undefined] or [null]
    throws; a primitive or an array has no such property. *)
Definition get (v : value) (key : string) : result value :=
  match v with
  | VUndef | VNull => Throw TypeError
  | VObj fields => Ok (lookup fields key)
  | VBool _ | VNum _ | VStr _ | VArr _ => Ok VUndef
  end.

(** The same read where it cannot throw: what [v.key] is for a [v] that
    is neither [undefined] nor [null]. *)
Definition field (v : value) (key : string) : value :=
  match v with
  | VObj fields => lookup fields key
  | _ => VUndef
  end.

(** A chain of such reads, [v.k1.k2...], a missing link giving
    [undefined] as the script's [|| {}] guards arrange. *)
Definition path (v : value) (keys : list string) : value :=
  fold_left field keys v.

Definition is_nan (x : float) : bool := negb (PrimFloat.eqb x x).

(** ToBoolean. *)
Definition truthy (v : value) : bool :=
  match v with
  | VUndef | VNull => false
  | VBool b => b
  | VNum x => negb (PrimFloat.eqb x 0 || is_nan x)
  | VStr s => negb (String.eqb s "")
  | VArr _ | VObj _ => true
  end.

(** [a || b] on values that are already computed (no operand of [||] in
    the script has an effect). *)
Definition or_else (a b : value) : value := if truthy a then a else b.

(** ToString. An array joins the strings of its elements with commas,
    [null] and [undefined] elements giving the empty string. A parsed
    object inherits [Object.prototype.toString] unless it has an own
    property of that name, which is then not callable: the conversion has
    nothing left to call and throws. *)
Fixpoint to_string (v : value) : result string :=
  match v with
  | VUndef => Ok "undefined"
  | VNull => Ok "null"
  | VBool b => Ok (if b then "true" else "false")
  | VNum x => Ok (JSNumber.toString x)
  | VStr s => Ok s
  | VArr items =>
      let element v := match v with
                       | VUndef | VNull => Ok ""
                       | _ => to_string v
                       end in
      (fix join (l : list value) : result string :=
         match l with
         | [] => Ok ""
         | [x] => element x
         | x :: rest =>
             let* a := element x in
             let* b := join rest in
             Ok (a ++ String "," b)
         end) items
  | VObj fields =>
      if has_own fields "toString" then Throw TypeError else Ok "[object Object]"
  end.

(** ToNumber; an array or object goes through its string. *)
Definition to_number (v : value) : result float :=
  match v with
  | VUndef => Ok nan
  | VNull => Ok zero
  | VBool b => Ok (if b then one else zero)
  | VNum x => Ok x
  | VStr s => Ok (JSNumber.StringToNumber s)
  | VArr _ | VObj _ =>
      let* s := to_string v in Ok (JSNumber.StringToNumber s)
  end.

(** [v * c] and [v / c] for a Number literal [c]. *)
Definition times (v : value) (c : float) : result float :=
  let* x := to_number v in Ok (PrimFloat.mul x c).

Definition divided_by (v : value) (c : float) : result float :=
  let* x := to_number v in Ok (PrimFloat.div x c).

(** [v >= c] and [v > c] for a Number literal [c]: with a Number on one
    side the comparison is numeric, and false when [v] converts to NaN. *)
Definition ge (v : value) (c : float) : result bool :=
  let* x := to_number v in Ok (PrimFloat.leb c x).

Definition gt (v : value) (c : float) : result bool :=
  let* x := to_number v in Ok (PrimFloat.ltb c x).

(** [v === "s"]. *)
Definition strict_equal_string (v : value) (s : string) : bool :=
  match v with
  | VStr t => String.eqb t s
  | _ => false
  end.

(** [v.toFixed(f)]: only a Number has the method; on anything else the
    property is missing or not callable. *)
Definition call_toFixed (v : value) (f : nat) : result value :=
  match v with
  | VNum x => Ok (VStr (JSNumber.toFixed x f))
  | _ => Throw TypeError
  end.

(** [v?.toFixed(f)]. *)
Definition optional_toFixed (v : value) (f : nat) : result value :=
  match v with
  | VUndef | VNull => Ok VUndef
  | _ => call_toFixed v f
  end.

(** [s.split(' ')]: the pieces of [s] between its space characters. *)
Fixpoint split_space (s : string) : list string :=
  match s with
  | EmptyString => [""]
  | String c rest =>
      if Ascii.eqb c " " then "" :: split_space rest
      else match split_space rest with
           | piece :: pieces => String c piece :: pieces
           | [] => [String c ""]
           end
  end.

(** [v.split(' ')[0]]: only a string has [split]. *)
Definition call_split_first (v : value) : result value :=
  match v with
  | VStr s => Ok (match split_space s with
                  | piece :: _ => VStr piece
                  | [] => VUndef
                  end)
  | _ => Throw TypeError
  end.

(** Whether [v.includes('GMT')] can be called: strings and arrays have
    the method. The script uses the answer only to choose between two
    identical expressions, so only whether the call throws matters. *)
Definition call_includes (v : value) : result unit :=
  match v with
  | VStr _ | VArr _ => Ok tt
  | _ => Throw TypeError
  end.

(** The elements of [v], for [v.filter] and [v.forEach]: only an array
    has them. *)
Definition elements (v : value) : result (list value) :=
  match v with
  | VArr items => Ok items
  | _ => Throw TypeError
  end.

(** [items.filter(callback)], the callback evaluated on each element in
    order. *)
Fixpoint array_filter (callback : value -> result bool) (items : list value)
  : result (list value) :=
  match items with
  | [] => Ok []
  | x :: rest =>
      let* keep := callback x in
      let* kept := array_filter callback rest in
      Ok (if keep then x :: kept else kept)
  end.

(** The Number of a length. *)
Definition number_of_nat (n : nat) : float :=
  PrimFloat.of_uint63 (Uint63.of_Z (Z.of_nat n)).

End JS.

(** ** The page *)

(** A result card, as [fetchStocks] fills its template: one field per
    interpolation, in the order of the template, and the symbol its click
    handler passes on. The markup around the interpolations is constant. *)
Record card : Type := {
  card_symbol : string;     (* ${stock.symbol} *)
  card_score : string;      (* ${stock.score} *)
  card_sector : string;     (* ${sector} *)
  card_finColor : string;   (* ${finScore > 70 ? 'var(--success)' : 'inherit'} *)
  card_finScore : string;   (* ${finScore} *)
  card_rvol : string;       (* ${rvol.toFixed(2)} *)
  card_trend : string;      (* ${technicals.trend || '...'}, before ' detectado.' *)
  card_onclick : value      (* stock.symbol, for showStockDetail *)
}.

(** The detail layout, as [showStockDetail] fills its template; the ROE
    and Market Cap cells with the suffix the template appends. *)
Record detail : Type := {
  detail_symbol : string;       (* ${data.symbol} *)
  detail_sector : string;       (* ${financials.sector || 'N/A'} *)
  detail_score : string;        (* ${data.score} *)
  detail_outlook : string;      (* ${institutional.outlook || '...'} *)
  detail_rvol : string;         (* ${technicals.relative_volume?.toFixed(2) || '1.00'} *)
  detail_trend : string;        (* ${technicals.trend || 'Neutral'} *)
  detail_stability : string;    (* ${financials.stability || 'Media'} *)
  detail_pe : string;           (* ${financials.pe?.toFixed(1) || 'N/A'} *)
  detail_debt_equity : string;  (* ${financials.debt_equity?.toFixed(2) || 'N/A'} *)
  detail_roe : string;          (* ${(financials.roe * 100)?.toFixed(1) || '0'}% *)
  detail_market_cap : string;   (* ${(financials.market_cap / 1e9).toFixed(1)}B *)
  detail_banner : string        (* ${data.passed_financials ? ... : ...} *)
}.

(** [#modalBody.innerHTML]: one of the two paragraphs the script writes
    literally, or the filled detail layout. *)
Inductive modal_body : Type :=
| Html (markup : string)
| Layout (d : detail).

(** The element properties the script writes. *)
Record page : Type := {
  totalIndexed : string;          (* #totalIndexed.textContent *)
  workerState : string;           (* #workerState.textContent *)
  workerState_scanning : bool;    (* 'scanning' in #workerState.classList *)
  scanProgressText : string;      (* #scanProgressText.textContent *)
  stocksGrid : list card;         (* the children of #stocksGrid *)
  opportunityCount : string;      (* #opportunityCount.textContent *)
  stockModal_display : string;    (* #stockModal.style.display *)
  modalBody : modal_body          (* #modalBody.innerHTML *)
}.

(** The page together with what the script sends out: the console, the
    requests made with [fetch] (method and URL), the alerts shown, and how
    often the icon library was asked to replace the icon placeholders. *)
Record world : Type := {
  dom : page;
  console : list (string * exn);
  requests : list (string * string);
  alerts : list string;
  icons : nat
}.

(** How an awaited [fetch(url)] followed by [response.json()] ends: one
    of the two promises rejects ([fetch] with [NetworkError], [json] with
    [DecodeError]), or the body is parsed. *)
Inductive fetch_outcome : Type :=
| Rejected (e : exn)
| Parsed (data : value).

(** State and exceptions: what a statement has written stays written
    when a later one throws. *)
Definition M (A : Type) : Type := world -> result A * world.

Definition ret {A : Type} (a : A) : M A := fun w => (Ok a, w).

Definition bind {A B : Type} (m : M A) (k : A -> M B) : M B :=
  fun w => match m w with
           | (Ok a, w') => k a w'
           | (Throw e, w') => (Throw e, w')
           end.

Definition lift {A : Type} (r : result A) : M A := fun w => (r, w).

Definition try_catch (body : M unit) (handler : exn -> M unit) : M unit :=
  fun w => match body w with
           | (Ok tt, w') => (Ok tt, w')
           | (Throw e, w') => handler e w'
           end.

Definition run (m : M unit) (w : world) : world := snd (m w).

Notation "x <- m ;; k" := (bind m (fun x => k))
  (at level 100, m at next level, right associativity) : js_scope.
Notation "m ;; k" := (bind m (fun _ => k))
  (at level 100, right associativity) : js_scope.

Definition update (f : page -> page) : M unit :=
  fun w => (Ok tt, {| dom := f (dom w); console := console w;
                      requests := requests w; alerts := alerts w;
                      icons := icons w |}).

Module Dom.

Definition set_totalIndexed (s : string) : M unit :=
  update (fun p => {| totalIndexed := s; workerState := workerState p;
    workerState_scanning := workerState_scanning p;
    scanProgressText := scanProgressText p; stocksGrid := stocksGrid p;
    opportunityCount := opportunityCount p;
    stockModal_display := stockModal_display p; modalBody := modalBody p |}).

Definition set_workerState (s : string) : M unit :=
  update (fun p => {| totalIndexed := totalIndexed p; workerState := s;
    workerState_scanning := workerState_scanning p;
    scanProgressText := scanProgressText p; stocksGrid := stocksGrid p;
    opportunityCount := opportunityCount p;
    stockModal_display := stockModal_display p; modalBody := modalBody p |}).

Definition set_scanning (b : bool) : M unit :=
  update (fun p => {| totalIndexed := totalIndexed p; workerState := workerState p;
    workerState_scanning := b;
    scanProgressText := scanProgressText p; stocksGrid := stocksGrid p;
    opportunityCount := opportunityCount p;
    stockModal_display := stockModal_display p; modalBody := modalBody p |}).

Definition set_scanProgressText (s : string) : M unit :=
  update (fun p => {| totalIndexed := totalIndexed p; workerState := workerState p;
    workerState_scanning := workerState_scanning p;
    scanProgressText := s; stocksGrid := stocksGrid p;
    opportunityCount := opportunityCount p;
    stockModal_display := stockModal_display p; modalBody := modalBody p |}).

Definition set_stocksGrid (f : list card -> list card) : M unit :=
  update (fun p => {| totalIndexed := totalIndexed p; workerState := workerState p;
    workerState_scanning := workerState_scanning p;
    scanProgressText := scanProgressText p; stocksGrid := f (stocksGrid p);
    opportunityCount := opportunityCount p;
    stockModal_display := stockModal_display p; modalBody := modalBody p |}).

Definition set_opportunityCount (s : string) : M unit :=
  update (fun p => {| totalIndexed := totalIndexed p; workerState := workerState p;
    workerState_scanning := workerState_scanning p;
    scanProgressText := scanProgressText p; stocksGrid := stocksGrid p;
    opportunityCount := s;
    stockModal_display := stockModal_display p; modalBody := modalBody p |}).

Definition set_display (s : string) : M unit :=
  update (fun p => {| totalIndexed := totalIndexed p; workerState := workerState p;
    workerState_scanning := workerState_scanning p;
    scanProgressText := scanProgressText p; stocksGrid := stocksGrid p;
    opportunityCount := opportunityCount p;
    stockModal_display := s; modalBody := modalBody p |}).

Definition set_modalBody (b : modal_body) : M unit :=
  update (fun p => {| totalIndexed := totalIndexed p; workerState := workerState p;
    workerState_scanning := workerState_scanning p;
    scanProgressText := scanProgressText p; stocksGrid := stocksGrid p;
    opportunityCount := opportunityCount p;
    stockModal_display := stockModal_display p; modalBody := b |}).

End Dom.

(** [console.error(label, e)]. *)
Definition console_error (label : string) (e : exn) : M unit :=
  fun w => (Ok tt, {| dom := dom w; console := console w ++ [(label, e)];
                      requests := requests w; alerts := alerts w;
                      icons := icons w |}).

(** [alert(message)]. *)
Definition alert (message : string) : M unit :=
  fun w => (Ok tt, {| dom := dom w; console := console w;
                      requests := requests w; alerts := alerts w ++ [message];
                      icons := icons w |}).

(** [lucide.createIcons()]: the icon library is loaded by the page and is
    not part of the script; the call is counted. *)
Definition createIcons : M unit :=
  fun w => (Ok tt, {| dom := dom w; console := console w;
                      requests := requests w; alerts := alerts w;
                      icons := S (icons w) |}).

(** [fetch(url, {method})]: the request leaves when [fetch] is called. *)
Definition fetch_send (method url : string) : M unit :=
  fun w => (Ok tt, {| dom := dom w; console := console w;
                      requests := requests w ++ [(method, url)];
                      alerts := alerts w; icons := icons w |}).

(** The two awaits, of the response and of [response.json()]: the script
    touches nothing between them, so they are one step. *)
Definition fetch_receive (o : fetch_outcome) : M value :=
  match o with
  | Rejected e => lift (Throw e)
  | Parsed data => ret data
  end.

Definition fetch_json (method url : string) (o : fetch_outcome) : M value :=
  fetch_send method url ;; fetch_receive o.

(** ** The script *)

Definition API_BASE : string := "/api".

Definition empty_object : value := VObj [].

(** *** fetchHome (lines 5-24) *)

Definition fetchHome_try (o : fetch_outcome) : M unit :=
  data <- fetch_json "GET" (API_BASE ++ "/status") o ;;
  (* line 10 *)
  db_status <- lift (JS.get data "db_status") ;;
  indexed <- lift (JS.call_split_first db_status) ;;
  text <- lift (JS.to_string indexed) ;;
  Dom.set_totalIndexed text ;;
  (* line 11 *)
  worker <- lift (JS.get data "worker") ;;
  is_running <- lift (JS.get worker "is_running") ;;
  Dom.set_workerState (if JS.truthy is_running then "SCANNING" else "IDLE") ;;
  (* line 13 *)
  worker <- lift (JS.get data "worker") ;;
  is_running <- lift (JS.get worker "is_running") ;;
  if JS.truthy is_running then
    Dom.set_scanProgressText "Stock Analysis in Progress..." ;;
    Dom.set_scanning true
  else
    (* line 17: both branches of the conditional read data.worker.last_run *)
    worker <- lift (JS.get data "worker") ;;
    last_run <- lift (JS.get worker "last_run") ;;
    lift (JS.call_includes last_run) ;;
    worker <- lift (JS.get data "worker") ;;
    lastRun <- lift (JS.get worker "last_run") ;;
    text <- lift (JS.to_string lastRun) ;;
    Dom.set_scanProgressText ("Last run: " ++ text) ;;
    Dom.set_scanning false.

Definition fetchHome_catch (e : exn) : M unit :=
  console_error "Error fetching status:" e.

Definition fetchHome (o : fetch_outcome) : M unit :=
  try_catch (fetchHome_try o) fetchHome_catch.

(** *** fetchStocks (lines 26-84) *)

(** Lines 45-78: the card built for one entry of [data.results]. *)
Definition render_card (stock : value) : result card :=
  (* lines 48-51 *)
  let* d := JS.get stock "details" in
  let details := JS.or_else d empty_object in
  let* t := JS.get details "technicals" in
  let technicals := JS.or_else t empty_object in
  let* i := JS.get details "institutional" in
  let institutional := JS.or_else i empty_object in
  let* f := JS.get details "financials" in
  let financials := JS.or_else f empty_object in
  (* lines 53-55 *)
  let* rv := JS.get technicals "relative_volume" in
  let rvol := JS.or_else rv (VNum 1) in
  let* sec := JS.get financials "sector" in
  let sector := JS.or_else sec (VStr "Market") in
  let* fs := JS.get financials "score" in
  let finScore := JS.or_else fs (VNum 0) in
  (* lines 57-76, the interpolations in order *)
  let* symbol := JS.get stock "symbol" in
  let* symbol_text := JS.to_string symbol in
  let* score := JS.get stock "score" in
  let* score_text := JS.to_string score in
  let* sector_text := JS.to_string sector in
  let* high := JS.gt finScore 70 in
  let* finScore_text := JS.to_string finScore in
  let* rvol_fixed := JS.call_toFixed rvol 2 in
  let* rvol_text := JS.to_string rvol_fixed in
  let* trend := JS.get technicals "trend" in
  let* trend_text :=
    JS.to_string (JS.or_else trend (VStr "Posicionamiento Institucional")) in
  Ok {| card_symbol := symbol_text;
        card_score := score_text;
        card_sector := sector_text;
        card_finColor := if high then "var(--success)" else "inherit";
        card_finScore := finScore_text;
        card_rvol := rvol_text;
        card_trend := trend_text;
        card_onclick := symbol |}.

(** [items.forEach(body)]. *)
Fixpoint for_each (items : list value) (body : value -> M unit) : M unit :=
  match items with
  | [] => ret tt
  | x :: rest => body x ;; for_each rest body
  end.

(** Line 42: [s => s.score >= 75]. *)
Definition is_opportunity (s : value) : result bool :=
  let* score := JS.get s "score" in JS.ge score 75.

(** Lines 28-34: the URL is first built for the standard endpoint, then
    chosen by the comparison with the sentinel. *)
Definition scan_url (minScore : value) : result string :=
  let* m := JS.to_string minScore in
  let url := API_BASE ++ "/scan?limit=50&min_score=" ++ m in
  if JS.strict_equal_string minScore "darwinex"
  then Ok (API_BASE ++ "/scan-darwinex?limit=50&min_score=0")
  else let* m := JS.to_string minScore in
       Ok (API_BASE ++ "/scan?limit=50&min_score=" ++ m).

Definition fetchStocks_try (minScore : value) (o : fetch_outcome) : M unit :=
  url <- lift (scan_url minScore) ;;
  data <- fetch_json "GET" url o ;;
  (* lines 39-40 *)
  Dom.set_stocksGrid (fun _ => []) ;;
  (* line 42 *)
  results <- lift (JS.get data "results") ;;
  items <- lift (JS.elements results) ;;
  opportunities <- lift (JS.array_filter is_opportunity items) ;;
  Dom.set_opportunityCount
    (JSNumber.toString (JS.number_of_nat (List.length opportunities))) ;;
  (* lines 44-80 *)
  results <- lift (JS.get data "results") ;;
  items <- lift (JS.elements results) ;;
  for_each items (fun stock =>
    c <- lift (render_card stock) ;;
    Dom.set_stocksGrid (fun grid => (grid ++ [c])%list)).

Definition fetchStocks_catch (e : exn) : M unit :=
  console_error "Error fetching stocks:" e.

(** [fetchStocks(minScore = 0)]: the default stands in for a missing
    argument. *)
Definition default_minScore (argument : value) : value :=
  match argument with
  | VUndef => VNum 0
  | _ => argument
  end.

Definition fetchStocks (argument : value) (o : fetch_outcome) : M unit :=
  try_catch (fetchStocks_try (default_minScore argument) o) fetchStocks_catch.

(** *** showStockDetail (lines 86-139) *)

Definition loading_placeholder : string := "<p>Cargando análisis profundo...</p>".
Definition error_placeholder : string := "<p>Error al cargar los datos detallados.</p>".

(** Lines 96-134: the detail layout for the analysis of one symbol. *)
Definition render_detail (data : value) : result detail :=
  (* lines 96-99 *)
  let* d := JS.get data "details" in
  let details := JS.or_else d empty_object in
  let* t := JS.get details "technicals" in
  let technicals := JS.or_else t empty_object in
  let* f := JS.get details "financials" in
  let financials := JS.or_else f empty_object in
  let* i := JS.get details "institutional" in
  let institutional := JS.or_else i empty_object in
  (* lines 101-134, the interpolations in order *)
  let* symbol := JS.get data "symbol" in
  let* symbol_text := JS.to_string symbol in
  let* sector := JS.get financials "sector" in
  let* sector_text := JS.to_string (JS.or_else sector (VStr "N/A")) in
  let* score := JS.get data "score" in
  let* score_text := JS.to_string score in
  let* outlook := JS.get institutional "outlook" in
  let* outlook_text :=
    JS.to_string (JS.or_else outlook (VStr "Análisis en proceso...")) in
  let* relative_volume := JS.get technicals "relative_volume" in
  let* rvol_fixed := JS.optional_toFixed relative_volume 2 in
  let* rvol_text := JS.to_string (JS.or_else rvol_fixed (VStr "1.00")) in
  let* trend := JS.get technicals "trend" in
  let* trend_text := JS.to_string (JS.or_else trend (VStr "Neutral")) in
  let* stability := JS.get financials "stability" in
  let* stability_text := JS.to_string (JS.or_else stability (VStr "Media")) in
  let* pe := JS.get financials "pe" in
  let* pe_fixed := JS.optional_toFixed pe 1 in
  let* pe_text := JS.to_string (JS.or_else pe_fixed (VStr "N/A")) in
  let* debt_equity := JS.get financials "debt_equity" in
  let* debt_equity_fixed := JS.optional_toFixed debt_equity 2 in
  let* debt_equity_text :=
    JS.to_string (JS.or_else debt_equity_fixed (VStr "N/A")) in
  let* roe := JS.get financials "roe" in
  let* roe_percent := JS.times roe 100 in
  let* roe_fixed := JS.optional_toFixed (VNum roe_percent) 1 in
  let* roe_text := JS.to_string (JS.or_else roe_fixed (VStr "0")) in
  let* market_cap := JS.get financials "market_cap" in
  let* billions := JS.divided_by market_cap 1e9 in
  let* market_cap_fixed := JS.call_toFixed (VNum billions) 1 in
  let* market_cap_text := JS.to_string market_cap_fixed in
  let* passed_financials := JS.get data "passed_financials" in
  Ok {| detail_symbol := symbol_text;
        detail_sector := sector_text;
        detail_score := score_text;
        detail_outlook := outlook_text;
        detail_rvol := rvol_text;
        detail_trend := trend_text;
        detail_stability := stability_text;
        detail_pe := pe_text;
        detail_debt_equity := debt_equity_text;
        detail_roe := roe_text ++ "%";
        detail_market_cap := market_cap_text ++ "B";
        detail_banner := if JS.truthy passed_financials
                         then "PASSED FUNDAMENTAL CHECK"
                         else "RISKY FUNDAMENTALS" |}.

(** Lines 87-90, and the call of [fetch] on line 93: what has happened
    when the function suspends at its first [await]. *)
Definition showStockDetail_open : M unit :=
  Dom.set_modalBody (Html loading_placeholder) ;;
  Dom.set_display "block".

Definition showStockDetail_request (symbol : value) : M unit :=
  s <- lift (JS.to_string symbol) ;;
  fetch_send "GET" (API_BASE ++ "/analyze/" ++ s).

(** Lines 93-135 from the first [await] on. *)
Definition showStockDetail_response (o : fetch_outcome) : M unit :=
  data <- fetch_receive o ;;
  d <- lift (render_detail data) ;;
  Dom.set_modalBody (Layout d) ;;
  createIcons.

Definition showStockDetail_catch (e : exn) : M unit :=
  Dom.set_modalBody (Html error_placeholder).

Definition showStockDetail (symbol : value) (o : fetch_outcome) : M unit :=
  showStockDetail_open ;;
  try_catch (showStockDetail_request symbol ;; showStockDetail_response o)
            showStockDetail_catch.

(** The function up to its suspension, and its continuation when the
    awaited response is there; a symbol that cannot be made a string
    throws into the [catch] before any request and there is nothing to
    resume. *)
Definition showStockDetail_begin (symbol : value) : M unit :=
  showStockDetail_open ;;
  try_catch (showStockDetail_request symbol) showStockDetail_catch.

Definition showStockDetail_resume (o : fetch_outcome) : M unit :=
  try_catch (showStockDetail_response o) showStockDetail_catch.

(** *** Event listeners (lines 141-161) *)

(** [updateDbBtn.onclick]: a rejected POST ends the handler before the
    alert. *)
Definition updateDbBtn_onclick (accepted : bool) (o : fetch_outcome) : M unit :=
  fetch_send "POST" (API_BASE ++ "/update-db") ;;
  (if accepted then ret tt else lift (Throw NetworkError)) ;;
  alert "Escaneo en segundo plano iniciado." ;;
  fetchHome o.

(** [scoreFilter.onchange]: the value of a form control is a string. *)
Definition scoreFilter_onchange (selected : string) (o : fetch_outcome) : M unit :=
  fetchStocks (VStr selected) o.

Definition close_modal_onclick : M unit := Dom.set_display "none".

(** [window.onclick]: what matters of the click's target is whether it
    is the [#stockModal] element itself, the backdrop. *)
Inductive click_target : Type := Backdrop | Elsewhere.

Definition window_onclick (target : click_target) : M unit :=
  match target with
  | Backdrop => Dom.set_display "none"
  | Elsewhere => ret tt
  end.

(** ** The data model of the responses

    The shapes the backend contract gives the responses: every field of
    [details] and [details] itself may be missing (or [null]); a field
    that is there has its type. *)

Module Shape.

Definition absent (v : value) : bool :=
  match v with
  | VUndef | VNull => true
  | _ => false
  end.

Definition is_number (v : value) : bool :=
  match v with
  | VNum _ => true
  | _ => false
  end.

Definition is_string (v : value) : bool :=
  match v with
  | VStr _ => true
  | _ => false
  end.

Definition is_bool (v : value) : bool :=
  match v with
  | VBool _ => true
  | _ => false
  end.

Definition optional (type : value -> bool) (v : value) : bool :=
  absent v || type v.

(** An optional sub-object whose listed fields are optional. *)
Definition optional_object (fields : list (string * (value -> bool))) (v : value)
  : bool :=
  match v with
  | VObj _ => forallb (fun kt => optional (snd kt) (JS.field v (fst kt))) fields
  | _ => absent v
  end.

Definition technicals : value -> bool :=
  optional_object [("relative_volume", is_number); ("trend", is_string)].

Definition institutional : value -> bool :=
  optional_object [("outlook", is_string)].

Definition financials : value -> bool :=
  optional_object [("sector", is_string); ("score", is_number);
                   ("pe", is_number); ("debt_equity", is_number);
                   ("roe", is_number); ("market_cap", is_number);
                   ("stability", is_string)].

Definition StockDetails (v : value) : bool :=
  match v with
  | VObj _ => technicals (JS.field v "technicals")
              && institutional (JS.field v "institutional")
              && financials (JS.field v "financials")
  | _ => absent v
  end.

Definition StockSummary (v : value) : bool :=
  match v with
  | VObj _ => is_string (JS.field v "symbol") && is_number (JS.field v "score")
              && StockDetails (JS.field v "details")
  | _ => false
  end.

Definition StockAnalysis (v : value) : bool :=
  StockSummary v && is_bool (JS.field v "passed_financials").

End Shape.

(** ** What the properties are stated with *)

(** The two endpoints of the backend contract that serve result sets. *)
Definition standard_endpoint (min_score : string) : string :=
  "/api/scan?limit=50&min_score=" ++ min_score.

Definition darwinex_endpoint : string := "/api/scan-darwinex?limit=50&min_score=0".

(** What the filter control and the initial load pass to [fetchStocks]. *)
Definition filter_state (v : value) : bool :=
  match v with
  | VUndef | VNum _ | VStr _ => true
  | _ => false
  end.

(** An entry that has a score, as every StockSummary has. *)
Definition has_score (s : value) : bool :=
  match s with
  | VObj _ => Shape.is_number (JS.field s "score")
  | _ => false
  end.

(** The opportunities of a result set: its entries with score at least 75. *)
Definition opportunities (items : list value) : list value :=
  List.filter (fun s => match JS.field s "score" with
                        | VNum x => PrimFloat.leb 75 x
                        | _ => false
                        end) items.

Fixpoint has_space (s : string) : bool :=
  match s with
  | EmptyString => false
  | String c rest => Ascii.eqb c " " || has_space rest
  end.

(** A computation leaves an observation of the world as it found it,
    whether it returns or throws. *)
Definition preserves {X A : Type} (observe : world -> X) (m : M A) : Prop :=
  forall w, observe (snd (m w)) = observe w.

(** Concrete responses and pages. *)
Module Sample.

Definition blank : page :=
  {| totalIndexed := ""; workerState := ""; workerState_scanning := false;
     scanProgressText := ""; stocksGrid := []; opportunityCount := "";
     stockModal_display := "none"; modalBody := Html "" |}.

Definition start : world :=
  {| dom := blank; console := []; requests := []; alerts := []; icons := 0 |}.

Definition entry (symbol : string) (score : float) : value :=
  VObj [("symbol", VStr symbol); ("score", VNum score)].

(** A result set with the scores 80, 74, 75 and 90. *)
Definition scan : value :=
  VObj [("results", VArr [entry "AAPL" 80; entry "TSLA" 74;
                          entry "MSFT" 75; entry "NVDA" 90])].

(** The body of an error response: JSON, without [results]. *)
Definition error_body : value := VObj [("detail", VStr "Internal Server Error")].

Definition status : value :=
  VObj [("db_status", VStr "5230 stocks indexed");
        ("worker", VObj [("is_running", VBool false);
                         ("last_run", VStr "Mon, 01 Jan 2024 10:00:00 GMT")])].

(** A summary and an analysis with no [details] at all. *)
Definition sparse_summary : value := entry "AAPL" 80.

Definition sparse_analysis : value :=
  VObj [("symbol", VStr "AAPL"); ("score", VNum 80);
        ("passed_financials", VBool false)].

Definition sparse_card : card :=
  {| card_symbol := "AAPL"; card_score := "80"; card_sector := "Market";
     card_finColor := "inherit"; card_finScore := "0"; card_rvol := "1.00";
     card_trend := "Posicionamiento Institucional"; card_onclick := VStr "AAPL" |}.

Definition sparse_detail : detail :=
  {| detail_symbol := "AAPL"; detail_sector := "N/A"; detail_score := "80";
     detail_outlook := "Análisis en proceso..."; detail_rvol := "1.00";
     detail_trend := "Neutral"; detail_stability := "Media";
     detail_pe := "N/A"; detail_debt_equity := "N/A"; detail_roe := "NaN%";
     detail_market_cap := "NaNB"; detail_banner := "RISKY FUNDAMENTALS" |}.

(** Some sub-objects missing or [null], some fields missing. *)
Definition partial_details : value :=
  VObj [("technicals", VObj [("trend", VStr "Alcista")]);
        ("institutional", VNull);
        ("financials", VObj [("pe", VNum 28.5); ("sector", VNull)])].

Definition partial_summary : value :=
  VObj [("symbol", VStr "MSFT"); ("score", VNum 75); ("details", partial_details)].

Definition partial_analysis : value :=
  VObj [("symbol", VStr "MSFT"); ("score", VNum 75); ("details", partial_details);
        ("passed_financials", VBool true)].

(** Zeros where a number is expected. *)
Definition zero_details : value :=
  VObj [("technicals", VObj [("relative_volume", VNum 0)]);
        ("financials", VObj [("score", VNum 0); ("roe", VNum 0)])].

Definition zero_summary : value :=
  VObj [("symbol", VStr "TSLA"); ("score", VNum 74); ("details", zero_details)].

Definition zero_analysis : value :=
  VObj [("symbol", VStr "TSLA"); ("score", VNum 74); ("details", zero_details);
        ("passed_financials", VBool false)].

Definition zero_card : card :=
  {| card_symbol := "TSLA"; card_score := "74"; card_sector := "Market";
     card_finColor := "inherit"; card_finScore := "0"; card_rvol := "1.00";
     card_trend := "Posicionamiento Institucional"; card_onclick := VStr "TSLA" |}.

Definition zero_detail : detail :=
  {| detail_symbol := "TSLA"; detail_sector := "N/A"; detail_score := "74";
     detail_outlook := "Análisis en proceso..."; detail_rvol := "0.00";
     detail_trend := "Neutral"; detail_stability := "Media";
     detail_pe := "N/A"; detail_debt_equity := "N/A"; detail_roe := "0.0%";
     detail_market_cap := "NaNB"; detail_banner := "RISKY FUNDAMENTALS" |}.

(** Every field there. *)
Definition full_analysis : value :=
  VObj [("symbol", VStr "NVDA"); ("score", VNum 82.5);
        ("details",
         VObj [("technicals", VObj [("relative_volume", VNum 1.25);
                                    ("trend", VStr "Alcista")]);
               ("institutional", VObj [("outlook", VStr "Acumulando")]);
               ("financials", VObj [("sector", VStr "Technology");
                                    ("score", VNum 80); ("pe", VNum 28.5);
                                    ("debt_equity", VNum 1.5);
                                    ("roe", VNum 0.125);
                                    ("market_cap", VNum 2500000000000);
                                    ("stability", VStr "Alta")])]);
        ("passed_financials", VBool true)].

Definition full_detail : detail :=
  {| detail_symbol := "NVDA"; detail_sector := "Technology";
     detail_score := "82.5"; detail_outlook := "Acumulando";
     detail_rvol := "1.25"; detail_trend := "Alcista";
     detail_stability := "Alta"; detail_pe := "28.5";
     detail_debt_equity := "1.50"; detail_roe := "12.5%";
     detail_market_cap := "2500.0B";
     detail_banner := "PASSED FUNDAMENTAL CHECK" |}.

(** The page after the initial scan has rendered [scan]. *)
Definition rendered : world := run (fetchStocks VUndef (Parsed scan)) start.

End Sample.

(** ** What the further properties are stated with *)

(** Line 78: the click handler of a card. *)
Definition card_click (c : card) (o : fetch_outcome) : M unit :=
  showStockDetail (card_onclick c) o.

(** The body of the loop of lines 44-80, as [fetchStocks_try] has it. *)
Definition card_body (stock : value) : M unit :=
  c <- lift (render_card stock) ;;
  Dom.set_stocksGrid (fun grid => (grid ++ [c])%list).

(** The parts of the page, by the operation that writes them. *)
Definition status_part (p : page) : string * string * bool * string :=
  (totalIndexed p, workerState p, workerState_scanning p, scanProgressText p).

Definition scan_part (p : page) : list card * string :=
  (stocksGrid p, opportunityCount p).

Definition modal_part (p : page) : string * modal_body :=
  (stockModal_display p, modalBody p).

(** What a computation returns and what it makes of a part of the page
    depend on that part alone. *)
Definition depends_only_on {X A : Type} (part : page -> X) (m : M A) : Prop :=
  forall w1 w2, part (dom w1) = part (dom w2) ->
    fst (m w1) = fst (m w2)
    /\ part (dom (snd (m w1))) = part (dom (snd (m w2))).

(** A computation that reads nothing of the page: it returns the same in
    every world, and what it makes of an observation of the page is either
    what the observation was or the same in every world. *)
Definition blind {X A : Type} (observe : page -> X) (m : M A) : Prop :=
  forall w1 w2,
    fst (m w1) = fst (m w2)
    /\ ((observe (dom (snd (m w1))) = observe (dom w1)
         /\ observe (dom (snd (m w2))) = observe (dom w2))
        \/ observe (dom (snd (m w1))) = observe (dom (snd (m w2)))).

(** The first of the pieces [split(' ')] gives. *)
Definition first_piece (s : string) : string :=
  match JS.split_space s with
  | piece :: _ => piece
  | [] => ""
  end.

(** What the modal body becomes when the awaited response is there. *)
Definition shown_for (o : fetch_outcome) : modal_body :=
  match o with
  | Rejected _ => Html error_placeholder
  | Parsed data =>
      match render_detail data with
      | Ok d => Layout d
      | Throw _ => Html error_placeholder
      end
  end.

(** The layout of an object that has none of the properties of an
    analysis. *)
Definition unexpected_detail : detail :=
  {| detail_symbol := "undefined"; detail_sector := "N/A";
     detail_score := "undefined"; detail_outlook := "Análisis en proceso...";
     detail_rvol := "1.00"; detail_trend := "Neutral";
     detail_stability := "Media"; detail_pe := "N/A";
     detail_debt_equity := "N/A"; detail_roe := "NaN%";
     detail_market_cap := "NaNB"; detail_banner := "RISKY FUNDAMENTALS" |}.

(** Further concrete responses and pages. *)
Module Scenario.

Definition card_of (symbol score : string) (target : string) : card :=
  {| card_symbol := symbol; card_score := score; card_sector := "Market";
     card_finColor := "inherit"; card_finScore := "0"; card_rvol := "1.00";
     card_trend := "Posicionamiento Institucional";
     card_onclick := VStr target |}.

(** The cards of [Sample.scan]. *)
Definition scan_cards : list card :=
  [card_of "AAPL" "80" "AAPL"; card_of "TSLA" "74" "TSLA";
   card_of "MSFT" "75" "MSFT"; card_of "NVDA" "90" "NVDA"].

(** An entry whose relative volume is a string. *)
Definition unrenderable : value :=
  VObj [("symbol", VStr "TSLA"); ("score", VNum 90);
        ("details", VObj [("technicals",
                           VObj [("relative_volume", VStr "high")])])].

Definition broken_scan : value :=
  VObj [("results", VArr [Sample.entry "AAPL" 80; unrenderable;
                          Sample.entry "MSFT" 75])].

(** A result set with a [null] entry. *)
Definition holed_scan : value :=
  VObj [("results", VArr [Sample.entry "AAPL" 80; VNull])].

(** A summary with every field of the card there; the financial score is
    on the threshold of the colouring. *)
Definition full_summary : value :=
  VObj [("symbol", VStr "NVDA"); ("score", VNum 82.5);
        ("details",
         VObj [("technicals", VObj [("relative_volume", VNum 1.25);
                                    ("trend", VStr "Alcista")]);
               ("financials", VObj [("sector", VStr "Technology");
                                    ("score", VNum 70)])])].

Definition full_card : card :=
  {| card_symbol := "NVDA"; card_score := "82.5"; card_sector := "Technology";
     card_finColor := "inherit"; card_finScore := "70"; card_rvol := "1.25";
     card_trend := "Alcista"; card_onclick := VStr "NVDA" |}.

(** An analysis whose ROE and market cap are [null]. *)
Definition null_analysis : value :=
  VObj [("symbol", VStr "TSLA"); ("score", VNum 74);
        ("details", VObj [("financials", VObj [("roe", VNull);
                                               ("market_cap", VNull)])]);
        ("passed_financials", VBool false)].

Definition null_detail : detail :=
  {| detail_symbol := "TSLA"; detail_sector := "N/A"; detail_score := "74";
     detail_outlook := "Análisis en proceso..."; detail_rvol := "1.00";
     detail_trend := "Neutral"; detail_stability := "Media";
     detail_pe := "N/A"; detail_debt_equity := "N/A"; detail_roe := "0.0%";
     detail_market_cap := "0.0B"; detail_banner := "RISKY FUNDAMENTALS" |}.

(** A status while the worker runs, and one of an idle worker that has
    no last run to report. *)
Definition scanning_status : value :=
  VObj [("db_status", VStr "5230 stocks indexed");
        ("worker", VObj [("is_running", VBool true)])].

Definition idle_status_without_last_run : value :=
  VObj [("db_status", VStr "5230 stocks indexed");
        ("worker", VObj [("is_running", VBool false)])].

(** The page after a poll has shown the worker scanning. *)
Definition scanning : world := run (fetchHome (Parsed scanning_status)) Sample.start.

End Scenario.

(** ** Reading the responses *)

Lemma get_guarded (v : value) (key : string) :
  JS.get (JS.or_else v empty_object) key = Ok (JS.field v key).
Proof.
  unfold JS.or_else.
  destruct (JS.truthy v) eqn:E; destruct v; simpl in *;
    try discriminate; reflexivity.
Qed.

Lemma field_guarded (v : value) (key : string) :
  JS.field (JS.or_else v empty_object) key = JS.field v key.
Proof.
  unfold JS.or_else.
  destruct (JS.truthy v) eqn:E; destruct v; simpl in *;
    try discriminate; reflexivity.
Qed.

Lemma get_field (v : value) (key : string) (x : value) :
  JS.get v key = Ok x -> x = JS.field v key.
Proof. destruct v; simpl; congruence. Qed.

Lemma rbind_ok {A B : Type} (r : result A) (k : A -> result B) (b : B) :
  rbind r k = Ok b -> exists a, r = Ok a /\ k a = Ok b.
Proof. destruct r; simpl; [eauto | discriminate]. Qed.

Lemma Ok_inj {A : Type} (a b : A) : Ok a = Ok b -> a = b.
Proof. congruence. Qed.

Lemma absent_falsy (v : value) :
  Shape.absent v = true -> forall d, JS.or_else v d = d.
Proof. destruct v; try discriminate; reflexivity. Qed.

Lemma or_else_zero (d : value) : JS.or_else (VNum 0) d = d.
Proof. reflexivity. Qed.

(** *** Optional fields of the data model *)

Lemma optional_object_field fields v key type :
  Shape.optional_object fields v = true -> In (key, type) fields ->
  Shape.optional type (JS.field v key) = true.
Proof.
  intros H Hin. destruct v; simpl in *; try reflexivity.
  rewrite forallb_forall in H. apply (H (key, type) Hin).
Qed.

Lemma StockDetails_parts (d : value) :
  Shape.StockDetails d = true ->
  Shape.technicals (JS.field d "technicals") = true
  /\ Shape.institutional (JS.field d "institutional") = true
  /\ Shape.financials (JS.field d "financials") = true.
Proof.
  destruct d; simpl; try discriminate; auto.
  intros H. apply andb_prop in H. destruct H as [H ?].
  apply andb_prop in H. tauto.
Qed.

Lemma StockSummary_has_score (s : value) :
  Shape.StockSummary s = true -> has_score s = true.
Proof.
  destruct s; simpl; try discriminate. intros H.
  apply andb_prop in H. destruct H as [H _].
  apply andb_prop in H. tauto.
Qed.

Lemma to_string_optional_string v fallback :
  Shape.optional Shape.is_string v = true ->
  exists s, JS.to_string (JS.or_else v (VStr fallback)) = Ok s.
Proof.
  unfold JS.or_else.
  destruct (JS.truthy v) eqn:E; destruct v; simpl in *;
    try discriminate; eauto.
Qed.

Lemma to_string_optional_number v fallback :
  Shape.optional Shape.is_number v = true ->
  exists s, JS.to_string (JS.or_else v (VNum fallback)) = Ok s.
Proof.
  unfold JS.or_else.
  destruct (JS.truthy v) eqn:E; destruct v; simpl in *;
    try discriminate; eauto.
Qed.

Lemma gt_optional_number v fallback c :
  Shape.optional Shape.is_number v = true ->
  exists b, JS.gt (JS.or_else v (VNum fallback)) c = Ok b.
Proof.
  unfold JS.or_else, JS.gt.
  destruct (JS.truthy v) eqn:E; destruct v; simpl in *;
    try discriminate; eauto.
Qed.

Lemma toFixed_optional_number v fallback f :
  Shape.optional Shape.is_number v = true ->
  exists s, JS.call_toFixed (JS.or_else v (VNum fallback)) f = Ok (VStr s).
Proof.
  unfold JS.or_else.
  destruct (JS.truthy v) eqn:E; destruct v; simpl in *;
    try discriminate; eauto.
Qed.

Lemma optional_toFixed_text v f fallback :
  Shape.optional Shape.is_number v = true ->
  exists x s, JS.optional_toFixed v f = Ok x
              /\ JS.to_string (JS.or_else x (VStr fallback)) = Ok s.
Proof.
  destruct v; simpl; try discriminate; intros _.
  - exists VUndef, fallback. split; reflexivity.
  - exists VUndef, fallback. split; reflexivity.
  - exists (VStr (JSNumber.toFixed x f)). unfold JS.or_else.
    destruct (JS.truthy _); eexists; split; reflexivity.
Qed.

Lemma to_number_optional_number v :
  Shape.optional Shape.is_number v = true -> exists x, JS.to_number v = Ok x.
Proof. destruct v; simpl; try discriminate; eauto. Qed.

Lemma to_string_strings a b :
  exists s, JS.to_string (JS.or_else (VStr a) (VStr b)) = Ok s.
Proof. unfold JS.or_else. destruct (JS.truthy _); simpl; eauto. Qed.

(** *** The render functions return on the data model *)

Ltac have_field H key :=
  let F := fresh "F" in
  pose proof (optional_object_field _ _ key _ H ltac:(simpl; tauto)) as F.

Ltac settle :=
  repeat first [ rewrite get_guarded
               | progress cbn [rbind JS.get JS.to_string JS.optional_toFixed
                               JS.call_toFixed] ].

Ltac by_lemma L :=
  let s := fresh "s" in
  let E := fresh "E" in
  destruct L as [s E]; rewrite E; settle.

Ltac by_lemma2 L :=
  let x := fresh "x" in
  let s := fresh "s" in
  let E := fresh "E" in
  let E' := fresh "E" in
  destruct L as (x & s & E & E'); rewrite E; settle; rewrite E'; settle.

Lemma render_card_returns (stock : value) :
  Shape.StockSummary stock = true -> exists c, render_card stock = Ok c.
Proof.
  intros H. destruct stock; try discriminate.
  unfold Shape.StockSummary in H.
  apply andb_prop in H. destruct H as [H Hd].
  apply andb_prop in H. destruct H as [Hsym Hscore].
  apply StockDetails_parts in Hd. destruct Hd as (Ht & _ & Hf).
  have_field Ht "relative_volume". have_field Ht "trend".
  have_field Hf "sector". have_field Hf "score".
  unfold render_card. settle. cbn [JS.field] in *.
  destruct (JS.lookup fields "symbol"); try discriminate.
  destruct (JS.lookup fields "score"); try discriminate.
  settle.
  by_lemma (to_string_optional_string _ "Market" F1).
  by_lemma (gt_optional_number _ 0 70 F2).
  by_lemma (to_string_optional_number _ 0 F2).
  by_lemma (toFixed_optional_number _ 1 2%nat F).
  by_lemma (to_string_optional_string _ "Posicionamiento Institucional" F0).
  eauto.
Qed.

Lemma render_detail_returns (data : value) :
  Shape.StockAnalysis data = true -> exists d, render_detail data = Ok d.
Proof.
  intros H. unfold Shape.StockAnalysis in H.
  apply andb_prop in H. destruct H as [H Hpassed].
  destruct data; try discriminate.
  unfold Shape.StockSummary in H.
  apply andb_prop in H. destruct H as [H Hd].
  apply andb_prop in H. destruct H as [Hsym Hscore].
  apply StockDetails_parts in Hd. destruct Hd as (Ht & Hi & Hf).
  have_field Ht "relative_volume". have_field Ht "trend".
  have_field Hi "outlook".
  have_field Hf "sector". have_field Hf "stability". have_field Hf "pe".
  have_field Hf "debt_equity". have_field Hf "roe". have_field Hf "market_cap".
  unfold render_detail. settle. cbn [JS.field] in *.
  destruct (JS.lookup fields "symbol"); try discriminate.
  destruct (JS.lookup fields "score"); try discriminate.
  settle.
  by_lemma (to_string_optional_string _ "N/A" F2).
  by_lemma (to_string_optional_string _ "Análisis en proceso..." F1).
  by_lemma2 (optional_toFixed_text _ 2%nat "1.00" F).
  by_lemma (to_string_optional_string _ "Neutral" F0).
  by_lemma (to_string_optional_string _ "Media" F3).
  by_lemma2 (optional_toFixed_text _ 1%nat "N/A" F4).
  by_lemma2 (optional_toFixed_text _ 2%nat "N/A" F5).
  unfold JS.times, JS.divided_by.
  by_lemma (to_number_optional_number _ F6).
  match goal with
  | |- context [JS.or_else (VStr ?a) (VStr ?b)] => by_lemma (to_string_strings a b)
  end.
  by_lemma (to_number_optional_number _ F7).
  eauto.
Qed.

(** C1: for every StockSummary and StockAnalysis of the data model, with
    any subset of the optional fields and sub-objects of [details] missing
    and [details] itself possibly missing, rendering the summary card and
    rendering the detail layout return: no accessor throws. *)
Theorem rendering_never_throws (stock data : value) :
  Shape.StockSummary stock = true ->
  Shape.StockAnalysis data = true ->
  (exists c, render_card stock = Ok c) /\ (exists d, render_detail data = Ok d).
Proof.
  intros Hs Ha. split.
  - apply render_card_returns, Hs.
  - apply render_detail_returns, Ha.
Qed.

Lemma rendering_never_throws_witness :
  (Shape.StockSummary Sample.partial_summary = true
   /\ Shape.StockAnalysis Sample.partial_analysis = true)
  /\ (exists c, render_card Sample.partial_summary = Ok c)
  /\ (exists d, render_detail Sample.partial_analysis = Ok d).
Proof.
  split; [split; reflexivity |].
  apply (rendering_never_throws Sample.partial_summary Sample.partial_analysis);
    reflexivity.
Defined.

(** ** What the render functions show *)

(** Reading a successful run of a render function backwards: every name
    it binds becomes the value it was bound to. *)
Ltac unbind H :=
  repeat (apply rbind_ok in H;
          let a := fresh "a" in
          let E := fresh "E" in
          destruct H as (a & E & H));
  apply Ok_inj in H;
  repeat match goal with
         | E : JS.get _ _ = Ok ?x |- _ =>
             apply get_field in E; rewrite ?field_guarded in E; subst x
         end.

(** *** Formatted numbers are never the empty string *)

Lemma append_nonempty_r (s t : string) : t <> "" -> s ++ t <> "".
Proof. destruct s; simpl; [auto | discriminate]. Qed.

Lemma append_nonempty_l (s t : string) : s <> "" -> s ++ t <> "".
Proof. destruct s; simpl; [congruence | discriminate]. Qed.

Lemma decimal_nonempty (n : Z) : JSNumber.decimal n <> "".
Proof.
  unfold JSNumber.decimal. destruct (N.to_uint (Z.to_N n)); simpl; discriminate.
Qed.

Lemma notation_nonempty (n k s : Z) : JSNumber.notation n k s <> "".
Proof.
  unfold JSNumber.notation.
  repeat match goal with
         | |- context [if ?b then _ else _] => destruct b
         end;
    first [ apply append_nonempty_l, decimal_nonempty
          | apply append_nonempty_r; discriminate
          | discriminate ].
Qed.

Lemma toString_pos_nonempty (m e : Z) : JSNumber.toString_pos m e <> "".
Proof.
  unfold JSNumber.toString_pos.
  destruct (JSNumber.shortest _ _ _ _ _) as [[n k] s].
  apply notation_nonempty.
Qed.

Lemma fixed_notation_nonempty (n : Z) (f : nat) : JSNumber.fixed_notation n f <> "".
Proof.
  unfold JSNumber.fixed_notation. destruct f.
  - apply decimal_nonempty.
  - apply append_nonempty_r. discriminate.
Qed.

Lemma toFixed_nonempty (x : float) (f : nat) : JSNumber.toFixed x f <> "".
Proof.
  unfold JSNumber.toFixed. destruct (Prim2SF x) as [s | s | | s m e].
  - apply fixed_notation_nonempty.
  - destruct s; discriminate.
  - discriminate.
  - apply append_nonempty_r.
    destruct (JSNumber.leq _ _);
      [apply toString_pos_nonempty | apply fixed_notation_nonempty].
Qed.

Lemma truthy_string (s : string) : s <> "" -> JS.truthy (VStr s) = true.
Proof. destruct s; simpl; congruence. Qed.

(** So the fallback behind a [toFixed] that was called is never taken. *)
Lemma or_else_toFixed (x : float) (f : nat) (fallback : value) :
  JS.or_else (VStr (JSNumber.toFixed x f)) fallback = VStr (JSNumber.toFixed x f).
Proof.
  unfold JS.or_else. rewrite truthy_string; [reflexivity | apply toFixed_nonempty].
Qed.

Lemma percent_is_not_NA (s : string) : s ++ "%" <> "N/A".
Proof.
  destruct s as [| a [| b [| c s]]]; simpl; try discriminate.
  intros H. injection H as _ _ _ H. destruct s; discriminate.
Qed.

(** Pushing known values through the steps a render function has taken. *)
Ltac resolve :=
  repeat match goal with
         | E : Ok _ = Ok ?a |- _ => apply Ok_inj in E; subst a
         | E : JS.optional_toFixed (VNum _) _ = Ok _ |- _ =>
             cbn [JS.optional_toFixed JS.call_toFixed] in E
         | E : JS.call_toFixed (VNum _) _ = Ok _ |- _ =>
             cbn [JS.call_toFixed] in E
         | E : context [JS.or_else (VStr (JSNumber.toFixed _ _)) _] |- _ =>
             rewrite or_else_toFixed in E
         | E : JS.to_string (VStr _) = Ok _ |- _ => cbn [JS.to_string] in E
         | E : JS.to_string (VNum _) = Ok _ |- _ => cbn [JS.to_string] in E
         | E : context [JS.to_number (VNum _)] |- _ =>
             cbn [JS.to_number rbind] in E
         | E : context [JS.to_number VUndef] |- _ =>
             cbn [JS.to_number rbind] in E
         end.

(** *** Market Cap *)

(** A market cap that is there shows in billions, with one decimal. *)
Lemma market_cap_billions data d x :
  render_detail data = Ok d ->
  JS.path data ["details"; "financials"; "market_cap"] = VNum x ->
  detail_market_cap d = JSNumber.toFixed (x / 1e9) 1 ++ "B".
Proof.
  intros Hd Hx. cbn [JS.path fold_left] in Hx.
  unfold render_detail in Hd. unbind Hd. subst d. cbn [detail_market_cap].
  rewrite Hx in *. unfold JS.divided_by in *. resolve. reflexivity.
Qed.

(** One that is missing divides to NaN, and the cell has no fallback. *)
Lemma market_cap_missing data d :
  render_detail data = Ok d ->
  JS.path data ["details"; "financials"; "market_cap"] = VUndef ->
  detail_market_cap d = "NaNB".
Proof.
  intros Hd Hx. cbn [JS.path fold_left] in Hx.
  unfold render_detail in Hd. unbind Hd. subst d. cbn [detail_market_cap].
  rewrite Hx in *. unfold JS.divided_by in *. resolve. reflexivity.
Qed.

(** C2: in the detail layout a missing [financials.market_cap] should show
    as N/A, as the missing P/E and Debt to Equity beside it do; the
    analysis without [details] shows NaNB in the Market Cap cell. *)
Theorem market_cap_absent_renders_NaN :
  JS.path Sample.sparse_analysis ["details"; "financials"; "market_cap"] = VUndef
  /\ exists d, render_detail Sample.sparse_analysis = Ok d
               /\ detail_market_cap d = "NaNB"
               /\ detail_pe d = "N/A"
               /\ detail_debt_equity d = "N/A".
Proof.
  split; [reflexivity |].
  exists Sample.sparse_detail. repeat split.
Qed.

(** *** ROE *)

(** A missing ROE multiplies to NaN before the optional call, so the
    fallback of the cell is not reached. *)
Lemma roe_missing data d :
  render_detail data = Ok d ->
  JS.path data ["details"; "financials"; "roe"] = VUndef ->
  detail_roe d = "NaN%".
Proof.
  intros Hd Hx. cbn [JS.path fold_left] in Hx.
  unfold render_detail in Hd. unbind Hd. subst d. cbn [detail_roe].
  rewrite Hx in *. unfold JS.times in *. resolve. reflexivity.
Qed.

(** C3, as the code has it: in every detail layout that renders, a
    [financials.roe] that is a number shows as that number times 100 with
    one decimal and a percent sign, never as N/A; a zero shows as 0.0%. *)
Theorem roe_percentage data d x :
  render_detail data = Ok d ->
  JS.path data ["details"; "financials"; "roe"] = VNum x ->
  detail_roe d = JSNumber.toFixed (x * 100) 1 ++ "%"
  /\ detail_roe d <> "N/A"
  /\ (x = 0%float -> detail_roe d = "0.0%").
Proof.
  intros Hd Hx. cbn [JS.path fold_left] in Hx.
  unfold render_detail in Hd. unbind Hd. subst d. cbn [detail_roe].
  rewrite Hx in *. unfold JS.times in *. resolve.
  split; [reflexivity | split; [apply percent_is_not_NA |]].
  intros ->. reflexivity.
Qed.

Lemma roe_percentage_witness :
  (render_detail Sample.full_analysis = Ok Sample.full_detail
   /\ JS.path Sample.full_analysis ["details"; "financials"; "roe"] = VNum 0.125)
  /\ detail_roe Sample.full_detail = "12.5%".
Proof.
  split; [split; reflexivity |].
  destruct (roe_percentage Sample.full_analysis Sample.full_detail 0.125
              eq_refl eq_refl) as [H _].
  rewrite H. reflexivity.
Defined.

(** C3 as stated fails: a ROE of zero that is there shows as 0.0%, with
    the decimal, and not as 0%. *)
Lemma roe_zero_renders_one_decimal :
  JS.path Sample.zero_analysis ["details"; "financials"; "roe"] = VNum 0
  /\ exists d, render_detail Sample.zero_analysis = Ok d
               /\ detail_roe d = "0.0%"
               /\ detail_roe d <> "0%".
Proof.
  split; [reflexivity |].
  exists Sample.zero_detail. split; [reflexivity |]. split; [reflexivity |].
  discriminate.
Qed.

(** *** Sector *)

(** C4, as the code has it: whenever [financials.sector] is missing, the
    summary card shows the sector Market and the detail layout shows N/A. *)
Theorem sector_fallback stock c data d :
  render_card stock = Ok c -> render_detail data = Ok d ->
  Shape.absent (JS.path stock ["details"; "financials"; "sector"]) = true ->
  Shape.absent (JS.path data ["details"; "financials"; "sector"]) = true ->
  card_sector c = "Market" /\ detail_sector d = "N/A".
Proof.
  intros Hc Hd Hs Hs'. cbn [JS.path fold_left] in Hs, Hs'.
  unfold render_card in Hc. unfold render_detail in Hd.
  unbind Hc. unbind Hd. subst c d. cbn [card_sector detail_sector].
  rewrite (absent_falsy _ Hs) in *. rewrite (absent_falsy _ Hs') in *.
  cbn [JS.to_string] in *. split; congruence.
Qed.

Lemma sector_fallback_witness :
  card_sector Sample.sparse_card = "Market"
  /\ detail_sector Sample.sparse_detail = "N/A".
Proof.
  apply (sector_fallback Sample.sparse_summary Sample.sparse_card
           Sample.sparse_analysis Sample.sparse_detail); reflexivity.
Defined.

(** C4 as stated fails for the detail layout: with the sector missing it
    shows N/A, which is not Market. *)
Lemma detail_sector_fallback_is_NA :
  Shape.absent (JS.path Sample.partial_analysis
                  ["details"; "financials"; "sector"]) = true
  /\ exists d, render_detail Sample.partial_analysis = Ok d
               /\ detail_sector d = "N/A"
               /\ detail_sector d <> "Market".
Proof.
  split; [reflexivity |].
  eexists. split; [vm_compute; reflexivity |].
  split; [reflexivity | discriminate].
Qed.

(** *** Zero and absence *)

(** C9: on the summary card a relative volume of 0 and a financial score
    of 0 show exactly as when they are missing (1.00 for the volume; 0,
    uncoloured, for the score), while the detail layout shows a relative
    volume of 0 as 0.00. *)
Theorem zero_reads_as_absent stock c stock' c' data d :
  render_card stock = Ok c -> render_card stock' = Ok c' ->
  render_detail data = Ok d ->
  JS.path stock ["details"; "technicals"; "relative_volume"] = VNum 0 ->
  JS.path stock ["details"; "financials"; "score"] = VNum 0 ->
  Shape.absent (JS.path stock' ["details"; "technicals"; "relative_volume"]) = true ->
  Shape.absent (JS.path stock' ["details"; "financials"; "score"]) = true ->
  JS.path data ["details"; "technicals"; "relative_volume"] = VNum 0 ->
  (card_rvol c = "1.00" /\ card_rvol c' = "1.00")
  /\ (card_finScore c = "0" /\ card_finScore c' = "0"
      /\ card_finColor c = card_finColor c')
  /\ detail_rvol d = "0.00".
Proof.
  intros Hc Hc' Hd Hr Hs Hr' Hs' Hdr. cbn [JS.path fold_left] in *.
  unfold render_card in Hc, Hc'. unfold render_detail in Hd.
  unbind Hc. unbind Hc'. unbind Hd. subst c c' d.
  cbn [card_rvol card_finScore card_finColor detail_rvol].
  rewrite Hr, Hs, Hdr in *.
  rewrite (absent_falsy _ Hr'), (absent_falsy _ Hs') in *.
  rewrite !or_else_zero in *. unfold JS.gt in *. resolve.
  repeat split; reflexivity.
Qed.

Lemma zero_reads_as_absent_witness :
  (card_rvol Sample.zero_card = "1.00" /\ card_rvol Sample.sparse_card = "1.00")
  /\ (card_finScore Sample.zero_card = "0"
      /\ card_finScore Sample.sparse_card = "0"
      /\ card_finColor Sample.zero_card = card_finColor Sample.sparse_card)
  /\ detail_rvol Sample.zero_detail = "0.00".
Proof.
  apply (zero_reads_as_absent Sample.zero_summary Sample.zero_card
           Sample.sparse_summary Sample.sparse_card
           Sample.zero_analysis Sample.zero_detail); reflexivity.
Defined.

(** ** What the operations leave alone *)

Section Frames.

Context {X : Type} (observe : world -> X).

Lemma preserves_ret {A : Type} (a : A) : preserves observe (ret a).
Proof. intros w. reflexivity. Qed.

Lemma preserves_lift {A : Type} (r : result A) : preserves observe (lift r).
Proof. intros w. reflexivity. Qed.

Lemma preserves_bind {A B : Type} (m : M A) (k : A -> M B) :
  preserves observe m -> (forall a, preserves observe (k a)) ->
  preserves observe (bind m k).
Proof.
  intros Hm Hk w. unfold bind. specialize (Hm w).
  destruct (m w) as [[a | e] w']; simpl in *.
  - rewrite Hk. exact Hm.
  - exact Hm.
Qed.

Lemma preserves_try_catch (body : M unit) (handler : exn -> M unit) :
  preserves observe body -> (forall e, preserves observe (handler e)) ->
  preserves observe (try_catch body handler).
Proof.
  intros Hb Hh w. unfold try_catch. specialize (Hb w).
  destruct (body w) as [[[] | e] w']; simpl in *.
  - exact Hb.
  - rewrite Hh. exact Hb.
Qed.

Lemma preserves_for_each (items : list value) (body : value -> M unit) :
  (forall x, preserves observe (body x)) ->
  preserves observe (for_each items body).
Proof.
  intros Hb. induction items as [| x rest IH]; simpl.
  - apply preserves_ret.
  - apply preserves_bind; auto.
Qed.

Lemma preserves_fetch_receive (o : fetch_outcome) :
  preserves observe (fetch_receive o).
Proof. destruct o; intros w; reflexivity. Qed.

End Frames.

(** Splits a computation into its statements; what is left is one write,
    which leaves the observation alone by computation. *)
Ltac frame :=
  repeat first
    [ apply preserves_ret
    | apply preserves_lift
    | apply preserves_fetch_receive
    | apply preserves_bind; [| intros ?]
    | apply preserves_for_each; intros ?
    | apply preserves_try_catch; [| intros ?]
    | match goal with
      | |- preserves _ (if ?b then _ else _) => destruct b
      | |- preserves _ (match ?x with _ => _ end) => destruct x
      end
    | (intros ?; reflexivity) ].

Lemma run_try_catch (body : M unit) (handler : exn -> M unit) (w : world) :
  run (try_catch body handler) w
  = match fst (body w) with
    | Ok _ => snd (body w)
    | Throw e => run (handler e) (snd (body w))
    end.
Proof.
  unfold run, try_catch. destruct (body w) as [[[] | e] w']; reflexivity.
Qed.

Lemma never_rejects (body : M unit) (label : string) (w : world) :
  fst (try_catch body (console_error label) w) = Ok tt.
Proof.
  unfold try_catch. destruct (body w) as [[[] | e] w']; reflexivity.
Qed.

(** ** The scan request *)

Lemma fetchStocks_requests argument o w url :
  scan_url (default_minScore argument) = Ok url ->
  requests (run (fetchStocks argument o) w) = (requests w ++ [("GET", url)])%list.
Proof.
  intros Hurl. unfold fetchStocks.
  set (minScore := default_minScore argument) in *.
  assert (Hrest : forall w',
    requests (snd (fetchStocks_try minScore o w'))
    = (requests w' ++ [("GET", url)])%list).
  { intros w'. unfold fetchStocks_try. rewrite Hurl.
    unfold fetch_json.
    change (bind (lift (Ok url)) ?k w') with (k url w').
    cbv beta.
    match goal with
    | |- requests (snd (bind (bind (fetch_send ?m ?u) ?k1) ?k2 w')) = _ =>
        change (bind (bind (fetch_send m u) k1) k2 w')
          with (bind (k1 tt) k2 (snd (fetch_send m u w')))
    end.
    match goal with
    | |- requests (snd (?m ?w1)) = _ =>
        assert (F : preserves requests m) by frame; rewrite F
    end.
    reflexivity. }
  rewrite run_try_catch. destruct (fst _).
  - apply Hrest.
  - unfold run, fetchStocks_catch, console_error. simpl. apply Hrest.
Qed.

Lemma scan_url_sentinel : scan_url (VStr "darwinex") = Ok darwinex_endpoint.
Proof. reflexivity. Qed.

Lemma scan_url_number (n : float) :
  scan_url (VNum n) = Ok (standard_endpoint (JSNumber.toString n)).
Proof. reflexivity. Qed.

Lemma scan_url_string (s : string) :
  s <> "darwinex" -> scan_url (VStr s) = Ok (standard_endpoint s).
Proof.
  intros H. unfold scan_url. cbn [JS.to_string rbind JS.strict_equal_string].
  destruct (String.eqb_spec s "darwinex"); [contradiction | reflexivity].
Qed.

(** C6: every call of [fetchStocks] sends one GET request, whatever the
    response will be: with the sentinel darwinex to /api/scan-darwinex
    with min_score=0; with a number n to /api/scan with limit=50 and
    min_score=n; with any other value of the filter control to /api/scan
    with that value; and with no argument to /api/scan with min_score=0. *)
Theorem scan_request_routing (w : world) (o : fetch_outcome) (n : float)
    (selected : string) :
  selected <> "darwinex" ->
  requests (run (fetchStocks (VStr "darwinex") o) w)
    = (requests w ++ [("GET", darwinex_endpoint)])%list
  /\ requests (run (fetchStocks (VNum n) o) w)
    = (requests w ++ [("GET", standard_endpoint (JSNumber.toString n))])%list
  /\ requests (run (scoreFilter_onchange selected o) w)
    = (requests w ++ [("GET", standard_endpoint selected)])%list
  /\ requests (run (fetchStocks VUndef o) w)
    = (requests w ++ [("GET", standard_endpoint "0")])%list.
Proof.
  intros Hs. repeat split.
  - apply fetchStocks_requests, scan_url_sentinel.
  - apply fetchStocks_requests, scan_url_number.
  - apply fetchStocks_requests, scan_url_string, Hs.
  - apply fetchStocks_requests. reflexivity.
Qed.

Lemma scan_request_routing_witness :
  requests (run (fetchStocks (VStr "darwinex") (Parsed Sample.scan)) Sample.rendered)
    = [("GET", "/api/scan?limit=50&min_score=0");
       ("GET", "/api/scan-darwinex?limit=50&min_score=0")]
  /\ requests (run (fetchStocks (VNum 75) (Parsed Sample.scan)) Sample.rendered)
    = [("GET", "/api/scan?limit=50&min_score=0");
       ("GET", "/api/scan?limit=50&min_score=75")]
  /\ requests (run (scoreFilter_onchange "50" (Parsed Sample.scan)) Sample.rendered)
    = [("GET", "/api/scan?limit=50&min_score=0");
       ("GET", "/api/scan?limit=50&min_score=50")]
  /\ requests (run (fetchStocks VUndef (Parsed Sample.scan)) Sample.rendered)
    = [("GET", "/api/scan?limit=50&min_score=0");
       ("GET", "/api/scan?limit=50&min_score=0")].
Proof.
  apply (scan_request_routing Sample.rendered (Parsed Sample.scan) 75 "50").
  discriminate.
Defined.

(** ** The opportunity count *)

Lemma array_filter_opportunities (items : list value) :
  forallb has_score items = true ->
  JS.array_filter is_opportunity items = Ok (opportunities items).
Proof.
  induction items as [| s rest IH]; simpl; [reflexivity |].
  intros H. apply andb_prop in H. destruct H as [Hs Hrest].
  rewrite (IH Hrest). destruct s; try discriminate. simpl in Hs.
  unfold is_opportunity, JS.ge. simpl.
  destruct (JS.lookup fields "score"); try discriminate. reflexivity.
Qed.

Lemma filter_state_url (argument : value) :
  filter_state argument = true ->
  exists url, scan_url (default_minScore argument) = Ok url.
Proof.
  destruct argument; try discriminate; intros _; simpl default_minScore.
  - eexists; reflexivity.
  - eexists; reflexivity.
  - unfold scan_url. cbn [JS.to_string rbind].
    destruct (JS.strict_equal_string _ _); eexists; reflexivity.
Qed.

(** C7: after every scan whose response carries a result set, the
    opportunity count shows the number of entries of that set with score
    at least 75, whatever it showed before; for the scores 80, 74, 75 and
    90 it shows 3. *)
Theorem opportunity_count (argument data : value) (items : list value) (w : world) :
  filter_state argument = true ->
  JS.get data "results" = Ok (VArr items) ->
  forallb has_score items = true ->
  opportunityCount (dom (run (fetchStocks argument (Parsed data)) w))
  = JSNumber.toString (JS.number_of_nat (List.length (opportunities items))).
Proof.
  intros Hf Hr Hs. destruct (filter_state_url _ Hf) as [url Hurl].
  unfold fetchStocks. rewrite run_try_catch.
  assert (H : opportunityCount (dom (snd
                (fetchStocks_try (default_minScore argument) (Parsed data) w)))
              = JSNumber.toString
                  (JS.number_of_nat (List.length (opportunities items)))).
  { unfold fetchStocks_try. rewrite Hurl.
    unfold bind at 1. cbn [lift].
    unfold bind at 1. unfold fetch_json, fetch_receive.
    unfold bind at 1. cbn [fetch_send ret].
    unfold bind at 1. cbn [Dom.set_stocksGrid update].
    rewrite Hr.
    unfold bind at 1. cbn [lift].
    unfold bind at 1. cbn [lift JS.elements].
    rewrite (array_filter_opportunities _ Hs).
    unfold bind at 1. cbn [lift].
    unfold bind at 1. cbn [Dom.set_opportunityCount update].
    match goal with
    | |- opportunityCount (dom (snd (?m ?w1))) = _ =>
        assert (F : preserves (fun w => opportunityCount (dom w)) m) by frame;
        rewrite F
    end.
    reflexivity. }
  destruct (fst _); [exact H |].
  unfold run, fetchStocks_catch, console_error. simpl. exact H.
Qed.

Lemma opportunity_count_witness :
  opportunityCount (dom (run (fetchStocks (VStr "darwinex") (Parsed Sample.scan))
                             Sample.rendered)) = "3".
Proof.
  rewrite (opportunity_count (VStr "darwinex") Sample.scan
             [Sample.entry "AAPL" 80; Sample.entry "TSLA" 74;
              Sample.entry "MSFT" 75; Sample.entry "NVDA" 90]
             Sample.rendered eq_refl eq_refl eq_refl).
  reflexivity.
Defined.

(** ** The indexed-count label *)

Lemma split_space_first (s : string) :
  exists piece pieces,
    JS.split_space s = piece :: pieces
    /\ has_space piece = false
    /\ (s = piece \/ exists rest, s = piece ++ String " " rest).
Proof.
  induction s as [| c s IH]; simpl.
  - exists "", []. auto.
  - destruct (Ascii.eqb_spec c " ") as [-> | Hc].
    + exists "", (JS.split_space s). simpl. eauto.
    + destruct IH as (piece & pieces & -> & Hp & Hs).
      exists (String c piece), pieces. simpl.
      rewrite Hp. destruct (Ascii.eqb_spec c " "); [contradiction |].
      repeat split.
      destruct Hs as [-> | [rest ->]]; [left | right; exists rest]; reflexivity.
Qed.

(** C10: after every status fetch whose response carries a [db_status]
    string, the indexed-count label shows the part of that string before
    its first space (all of it when it has no space), whatever the rest of
    the response is. *)
Theorem indexed_count_first_token (data : value) (s : string) (w : world) :
  JS.get data "db_status" = Ok (VStr s) ->
  has_space (totalIndexed (dom (run (fetchHome (Parsed data)) w))) = false
  /\ (s = totalIndexed (dom (run (fetchHome (Parsed data)) w))
      \/ exists rest,
           s = totalIndexed (dom (run (fetchHome (Parsed data)) w))
               ++ String " " rest).
Proof.
  intros Hs.
  destruct (split_space_first s) as (piece & pieces & Hsplit & Hp & Hrest).
  assert (H : totalIndexed (dom (run (fetchHome (Parsed data)) w)) = piece).
  { unfold fetchHome. rewrite run_try_catch.
    assert (H : totalIndexed (dom (snd (fetchHome_try (Parsed data) w))) = piece).
    { unfold fetchHome_try, fetch_json, fetch_receive.
      unfold bind at 1. unfold bind at 1. cbn [fetch_send ret].
      rewrite Hs. unfold bind at 1. cbn [lift JS.call_split_first].
      rewrite Hsplit. unfold bind at 1. cbn [lift JS.to_string].
      unfold bind at 1. cbn [lift].
      unfold bind at 1. cbn [Dom.set_totalIndexed update].
      match goal with
      | |- totalIndexed (dom (snd (?m ?w1))) = _ =>
          assert (F : preserves (fun w => totalIndexed (dom w)) m) by frame;
          rewrite F
      end.
      reflexivity. }
    destruct (fst _); [exact H |].
    unfold run, fetchHome_catch, console_error. simpl. exact H. }
  rewrite H. auto.
Qed.

Lemma indexed_count_first_token_witness :
  totalIndexed (dom (run (fetchHome (Parsed Sample.status)) Sample.start)) = "5230"
  /\ has_space "5230" = false
  /\ ("5230 stocks indexed" = "5230"
      \/ exists rest, "5230 stocks indexed" = "5230" ++ String " " rest).
Proof.
  split; [reflexivity |].
  apply (indexed_count_first_token Sample.status "5230 stocks indexed" Sample.start).
  reflexivity.
Defined.

(** ** Failing fetches *)

Lemma logs_what_it_catches (body : M unit) (label : string) (w : world) :
  preserves console body ->
  console (run (try_catch body (console_error label)) w)
  = match fst (body w) with
    | Ok _ => console w
    | Throw e => (console w ++ [(label, e)])%list
    end.
Proof.
  intros Hb. rewrite run_try_catch. specialize (Hb w).
  destruct (fst (body w)); [exact Hb |].
  unfold run, console_error. simpl. rewrite Hb. reflexivity.
Qed.

(** A [catch] that only logs leaves the page as the [try] block made it. *)
Lemma catch_keeps_page (body : M unit) (label : string) (w : world) :
  dom (run (try_catch body (console_error label)) w) = dom (snd (body w)).
Proof.
  unfold run, try_catch. destruct (body w) as [[[] | e] w']; reflexivity.
Qed.

Lemma fetchHome_try_console (o : fetch_outcome) : preserves console (fetchHome_try o).
Proof. unfold fetchHome_try, fetch_json. frame. Qed.

Lemma fetchStocks_try_console (minScore : value) (o : fetch_outcome) :
  preserves console (fetchStocks_try minScore o).
Proof. unfold fetchStocks_try, fetch_json. frame. Qed.

(** C5, as the code has it: when the request is rejected or the body is
    not JSON, a status fetch and a scan fetch leave every written
    property of the page as it was and log the failure once. Whatever the
    response, neither ever rejects: what handling the response throws is
    caught and logged once, and nothing is logged when nothing is thrown;
    and the [catch] undoes nothing: the page is left as the [try] block
    had made it when it threw, so the writes before the faulting access
    stay. *)
Theorem rejected_fetch_is_atomic (w : world) (e : exn) (argument : value)
    (o : fetch_outcome) :
  (dom (run (fetchHome (Rejected e)) w) = dom w
   /\ console (run (fetchHome (Rejected e)) w)
      = (console w ++ [("Error fetching status:", e)])%list)
  /\ (dom (run (fetchStocks argument (Rejected e)) w) = dom w
      /\ exists e', console (run (fetchStocks argument (Rejected e)) w)
                    = (console w ++ [("Error fetching stocks:", e')])%list)
  /\ (fst (fetchHome o w) = Ok tt
      /\ console (run (fetchHome o) w)
         = match fst (fetchHome_try o w) with
           | Ok _ => console w
           | Throw e' => (console w ++ [("Error fetching status:", e')])%list
           end
      /\ dom (run (fetchHome o) w) = dom (snd (fetchHome_try o w)))
  /\ (fst (fetchStocks argument o w) = Ok tt
      /\ console (run (fetchStocks argument o) w)
         = match fst (fetchStocks_try (default_minScore argument) o w) with
           | Ok _ => console w
           | Throw e' => (console w ++ [("Error fetching stocks:", e')])%list
           end
      /\ dom (run (fetchStocks argument o) w)
         = dom (snd (fetchStocks_try (default_minScore argument) o w))).
Proof.
  split; [split; reflexivity |]. split.
  - unfold fetchStocks, run, try_catch, fetchStocks_try.
    destruct (scan_url (default_minScore argument)) as [url | e'] eqn:E;
      (split; [reflexivity | eexists; reflexivity]).
  - split; (split; [apply never_rejects | split]).
    + apply logs_what_it_catches, fetchHome_try_console.
    + apply catch_keeps_page.
    + apply logs_what_it_catches, fetchStocks_try_console.
    + apply catch_keeps_page.
Qed.

(** C5 as stated fails for a response that is JSON of another shape: the
    grid that showed four cards is emptied before the missing result set
    is noticed, while the opportunity count keeps its old value; and a
    status without [worker] changes the indexed count alone. *)
Lemma malformed_response_changes_page :
  (List.length (stocksGrid (dom Sample.rendered)) = 4%nat
   /\ stocksGrid (dom (run (fetchStocks VUndef (Parsed Sample.error_body))
                           Sample.rendered)) = []
   /\ opportunityCount (dom (run (fetchStocks VUndef (Parsed Sample.error_body))
                                 Sample.rendered)) = "3"
   /\ console (run (fetchStocks VUndef (Parsed Sample.error_body)) Sample.rendered)
      = [("Error fetching stocks:", TypeError)])
  /\ (totalIndexed (dom Sample.rendered) = ""
      /\ totalIndexed (dom (run (fetchHome
                                   (Parsed (VObj [("db_status", VStr "5230 stocks")])))
                                Sample.rendered)) = "5230"
      /\ console (run (fetchHome (Parsed (VObj [("db_status", VStr "5230 stocks")])))
                      Sample.rendered)
         = [("Error fetching status:", TypeError)]).
Proof. repeat split. Qed.

(** ** The detail modal *)

(** [showStockDetail] is its beginning followed, when the response is
    there, by its continuation. *)
Lemma showStockDetail_phases (symbol : string) (o : fetch_outcome) (w : world) :
  run (showStockDetail (VStr symbol) o) w
  = run (showStockDetail_resume o) (run (showStockDetail_begin (VStr symbol)) w).
Proof.
  unfold showStockDetail, showStockDetail_begin, showStockDetail_resume.
  unfold run, bind, try_catch. simpl.
  destruct (showStockDetail_response o _) as [[[] | e] w']; reflexivity.
Qed.

Lemma resume_keeps_display (o : fetch_outcome) :
  preserves (fun w => stockModal_display (dom w)) (showStockDetail_resume o).
Proof. unfold showStockDetail_resume, showStockDetail_response. frame. Qed.

Lemma fetchHome_keeps_modal (o : fetch_outcome) :
  preserves (fun w => (stockModal_display (dom w), modalBody (dom w))) (fetchHome o).
Proof. unfold fetchHome, fetchHome_try, fetch_json, fetchHome_catch. frame. Qed.

Lemma fetchStocks_keeps_modal (argument : value) (o : fetch_outcome) :
  preserves (fun w => (stockModal_display (dom w), modalBody (dom w)))
            (fetchStocks argument o).
Proof. unfold fetchStocks, fetchStocks_try, fetch_json, fetchStocks_catch. frame. Qed.

(** C8: for every symbol, when [showStockDetail] suspends at its fetch the
    modal is displayed with the loading placeholder and the request is
    out; when the fetch then fails, whatever happened to the page in
    between, the body becomes the error placeholder and the display
    property is left as it is. A status poll, a scan and a click elsewhere
    do not touch the modal; the close control and a click on the backdrop
    hide it. *)
Theorem modal_loading_then_error (symbol : string) (w w' : world) (e : exn)
    (o : fetch_outcome) (argument : value) :
  (modalBody (dom (run (showStockDetail_begin (VStr symbol)) w))
     = Html loading_placeholder
   /\ stockModal_display (dom (run (showStockDetail_begin (VStr symbol)) w))
      = "block"
   /\ requests (run (showStockDetail_begin (VStr symbol)) w)
      = (requests w ++ [("GET", String.append "/api/analyze/" symbol)])%list)
  /\ (modalBody (dom (run (showStockDetail_resume (Rejected e)) w'))
        = Html error_placeholder
      /\ stockModal_display (dom (run (showStockDetail_resume (Rejected e)) w'))
         = stockModal_display (dom w'))
  /\ (modalBody (dom (run (showStockDetail (VStr symbol) (Rejected e)) w))
        = Html error_placeholder
      /\ stockModal_display (dom (run (showStockDetail (VStr symbol) (Rejected e)) w))
         = "block")
  /\ (stockModal_display (dom (run (fetchHome o) w')) = stockModal_display (dom w')
      /\ stockModal_display (dom (run (fetchStocks argument o) w'))
         = stockModal_display (dom w')
      /\ stockModal_display (dom (run (window_onclick Elsewhere) w'))
         = stockModal_display (dom w'))
  /\ (stockModal_display (dom (run close_modal_onclick w')) = "none"
      /\ stockModal_display (dom (run (window_onclick Backdrop) w')) = "none").
Proof.
  split; [repeat split |]. split; [split; reflexivity |].
  split; [rewrite showStockDetail_phases; split; reflexivity |].
  split; [| split; reflexivity].
  pose proof (fetchHome_keeps_modal o w') as Hh.
  pose proof (fetchStocks_keeps_modal argument o w') as Hs.
  unfold run. split; [congruence | split; [congruence | reflexivity]].
Qed.

(** ** A well-formed result set renders whole *)

Lemma bind_run {A B : Type} (m : M A) (k : A -> M B) (w : world) :
  bind m k w = match m w with
               | (Ok a, w') => k a w'
               | (Throw e, w') => (Throw e, w')
               end.
Proof. reflexivity. Qed.

Lemma for_each_cards (items : list value) (w : world) :
  forallb Shape.StockSummary items = true ->
  exists w',
    for_each items (fun stock =>
      c <- lift (render_card stock) ;;
      Dom.set_stocksGrid (fun grid => (grid ++ [c])%list)) w = (Ok tt, w')
    /\ console w' = console w
    /\ List.length (stocksGrid (dom w'))
       = (List.length (stocksGrid (dom w)) + List.length items)%nat.
Proof.
  revert w. induction items as [| x rest IH]; intros w H; simpl in H |- *.
  - exists w. repeat split. lia.
  - apply andb_prop in H. destruct H as [Hx Hrest].
    destruct (render_card_returns x Hx) as [c Hc].
    rewrite !bind_run. unfold lift at 1. rewrite Hc.
    cbn [Dom.set_stocksGrid update].
    match goal with
    | |- context [for_each rest ?body ?w1] =>
        destruct (IH w1 Hrest) as (w' & Hrun & Hlog & Hlen)
    end.
    exists w'. split; [exact Hrun |]. split; [exact Hlog |].
    rewrite Hlen. simpl. rewrite length_app. simpl. lia.
Qed.

(** A result set of StockSummary entries, however sparse their details,
    is rendered to the end: one card per entry and nothing logged. *)
Lemma fetchStocks_renders_every_entry (argument data : value)
    (items : list value) (w : world) :
  filter_state argument = true ->
  JS.get data "results" = Ok (VArr items) ->
  forallb Shape.StockSummary items = true ->
  List.length (stocksGrid (dom (run (fetchStocks argument (Parsed data)) w)))
    = List.length items
  /\ console (run (fetchStocks argument (Parsed data)) w) = console w.
Proof.
  intros Hf Hr Hs. destruct (filter_state_url _ Hf) as [url Hurl].
  assert (Hscore : forallb has_score items = true).
  { rewrite forallb_forall in *. intros x Hx.
    apply StockSummary_has_score, Hs, Hx. }
  assert (H : exists w',
    fetchStocks_try (default_minScore argument) (Parsed data) w = (Ok tt, w')
    /\ console w' = console w
    /\ List.length (stocksGrid (dom w')) = List.length items).
  { unfold fetchStocks_try, fetch_json, fetch_receive.
    rewrite bind_run. cbn [lift]. rewrite Hurl.
    repeat (rewrite bind_run;
            cbn [lift ret fetch_send update Dom.set_stocksGrid
                 Dom.set_opportunityCount JS.elements];
            rewrite ?Hr, ?(array_filter_opportunities _ Hscore)).
    match goal with
    | |- context [for_each items ?body ?w1] =>
        destruct (for_each_cards items w1 Hs) as (w' & Hrun & Hlog & Hlen)
    end.
    exists w'. split; [exact Hrun |]. split; [exact Hlog | exact Hlen]. }
  destruct H as (w' & Hrun & Hlog & Hlen).
  unfold fetchStocks, run, try_catch. rewrite Hrun. simpl. auto.
Qed.

(** ** The Number conversions on known values *)

Example toString_values :
  map JSNumber.toString
      [0; 75; 82.5; 0.125; 100000000000000000000; 1000000000000000000000;
       0.0009765625; 0.00000095367431640625; 9007199254740992; nan; infinity;
       neg_infinity]%float
  = ["0"; "75"; "82.5"; "0.125"; "100000000000000000000"; "1e+21";
     "0.0009765625"; "9.5367431640625e-7"; "9007199254740992"; "NaN";
     "Infinity"; "-Infinity"].
Proof. vm_compute. reflexivity. Qed.

Example toFixed_values :
  map (fun x => JSNumber.toFixed x 1)
      [0; 0.25; 2.5; 12.5; -0.03125; 99.96875; 2500; nan;
       1000000000000000000000]%float
  = ["0.0"; "0.3"; "2.5"; "12.5"; "-0.0"; "100.0"; "2500.0"; "NaN"; "1e+21"]
  /\ map (fun x => JSNumber.toFixed x 2) [0; 1; 1.25; 0.125; 1234.5]%float
     = ["0.00"; "1.00"; "1.25"; "0.13"; "1234.50"].
Proof. split; vm_compute; reflexivity. Qed.

Example StringToNumber_values :
  map (fun s => JSNumber.toString (JSNumber.StringToNumber s))
      ["75"; " 12.5 "; ""; "0x1F"; "1e3"; ".5"; "-0.125"; "Infinity";
       "darwinex"; "12px"; "1e"]
  = ["75"; "12.5"; "0"; "31"; "1000"; "0.5"; "-0.125"; "Infinity";
     "NaN"; "NaN"; "NaN"].
Proof. vm_compute. reflexivity. Qed.

Example number_of_nat_values :
  map (fun n => JSNumber.toString (JS.number_of_nat n)) [0; 3; 50; 4096]%nat
  = ["0"; "3"; "50"; "4096"].
Proof. vm_compute. reflexivity. Qed.

(** ** Further properties of the render functions *)

Lemma or_else_string (s fallback : string) :
  JS.to_string (JS.or_else (VStr s) (VStr fallback))
  = Ok (if String.eqb s "" then fallback else s).
Proof. unfold JS.or_else. simpl. destruct (String.eqb s ""); reflexivity. Qed.

Lemma or_else_truthy (v d : value) : JS.truthy v = true -> JS.or_else v d = v.
Proof. unfold JS.or_else. intros ->. reflexivity. Qed.

Lemma optional_toFixed_absent v f x :
  Shape.absent v = true -> JS.optional_toFixed v f = Ok x -> x = VUndef.
Proof. destruct v; try discriminate; simpl; congruence. Qed.

Ltac texts :=
  repeat match goal with
         | E : JS.to_string (JS.or_else (VStr _) (VStr _)) = Ok _ |- _ =>
             rewrite or_else_string in E
         end.

(** X1: on a card that renders, a relative volume and a financial score
    that are non-zero numbers show as themselves (the volume with two
    decimals), the score is coloured exactly when it is above 70, and a
    sector and a trend that are strings show as themselves unless they are
    empty, when the fallback shows. *)
Theorem card_shows_present_values stock c rv score sector trend :
  render_card stock = Ok c ->
  JS.path stock ["details"; "technicals"; "relative_volume"] = VNum rv ->
  JS.path stock ["details"; "financials"; "score"] = VNum score ->
  JS.path stock ["details"; "financials"; "sector"] = VStr sector ->
  JS.path stock ["details"; "technicals"; "trend"] = VStr trend ->
  JS.truthy (VNum rv) = true -> JS.truthy (VNum score) = true ->
  card_rvol c = JSNumber.toFixed rv 2
  /\ card_finScore c = JSNumber.toString score
  /\ card_finColor c = (if PrimFloat.ltb 70 score then "var(--success)" else "inherit")
  /\ card_sector c = (if String.eqb sector "" then "Market" else sector)
  /\ card_trend c
     = (if String.eqb trend "" then "Posicionamiento Institucional" else trend).
Proof.
  intros Hc H1 H2 H3 H4 T1 T2. cbn [JS.path fold_left] in *.
  unfold render_card in Hc. unbind Hc. subst c.
  cbn [card_rvol card_finScore card_finColor card_sector card_trend].
  rewrite H1, H2, H3, H4 in *.
  rewrite (or_else_truthy _ _ T1), (or_else_truthy _ _ T2) in *.
  texts. unfold JS.gt in *. resolve. auto.
Qed.

Lemma card_shows_present_values_witness :
  render_card Scenario.full_summary = Ok Scenario.full_card
  /\ card_rvol Scenario.full_card = "1.25"
  /\ card_finScore Scenario.full_card = "70"
  /\ card_finColor Scenario.full_card = "inherit"
  /\ card_sector Scenario.full_card = "Technology"
  /\ card_trend Scenario.full_card = "Alcista".
Proof.
  split; [reflexivity |].
  apply (card_shows_present_values Scenario.full_summary Scenario.full_card
           1.25 70 "Technology" "Alcista"); reflexivity.
Defined.

(** X2: in a detail layout that renders, a sector, an outlook, a trend
    and a stability that are strings show as themselves unless they are
    empty; an empty string shows the fallback of its cell. *)
Theorem detail_text_fallbacks data d sector outlook trend stability :
  render_detail data = Ok d ->
  JS.path data ["details"; "financials"; "sector"] = VStr sector ->
  JS.path data ["details"; "institutional"; "outlook"] = VStr outlook ->
  JS.path data ["details"; "technicals"; "trend"] = VStr trend ->
  JS.path data ["details"; "financials"; "stability"] = VStr stability ->
  detail_sector d = (if String.eqb sector "" then "N/A" else sector)
  /\ detail_outlook d
     = (if String.eqb outlook "" then "Análisis en proceso..." else outlook)
  /\ detail_trend d = (if String.eqb trend "" then "Neutral" else trend)
  /\ detail_stability d = (if String.eqb stability "" then "Media" else stability).
Proof.
  intros Hd H1 H2 H3 H4. cbn [JS.path fold_left] in *.
  unfold render_detail in Hd. unbind Hd. subst d.
  cbn [detail_sector detail_outlook detail_trend detail_stability].
  rewrite H1, H2, H3, H4 in *. texts. resolve. auto.
Qed.

Lemma detail_text_fallbacks_witness :
  render_detail Sample.full_analysis = Ok Sample.full_detail
  /\ detail_sector Sample.full_detail = "Technology"
  /\ detail_outlook Sample.full_detail = "Acumulando"
  /\ detail_trend Sample.full_detail = "Alcista"
  /\ detail_stability Sample.full_detail = "Alta".
Proof.
  split; [reflexivity |].
  apply (detail_text_fallbacks Sample.full_analysis Sample.full_detail
           "Technology" "Acumulando" "Alcista" "Alta"); reflexivity.
Defined.

(** X3: in a detail layout that renders, a P/E, a debt to equity and a
    relative volume that are numbers show with one, two and two decimals,
    zero included: the fallback of these cells is for a missing value. *)
Theorem detail_numbers_present data d pe de rv :
  render_detail data = Ok d ->
  JS.path data ["details"; "financials"; "pe"] = VNum pe ->
  JS.path data ["details"; "financials"; "debt_equity"] = VNum de ->
  JS.path data ["details"; "technicals"; "relative_volume"] = VNum rv ->
  detail_pe d = JSNumber.toFixed pe 1
  /\ detail_debt_equity d = JSNumber.toFixed de 2
  /\ detail_rvol d = JSNumber.toFixed rv 2.
Proof.
  intros Hd H1 H2 H3. cbn [JS.path fold_left] in *.
  unfold render_detail in Hd. unbind Hd. subst d.
  cbn [detail_pe detail_debt_equity detail_rvol].
  rewrite H1, H2, H3 in *. resolve. auto.
Qed.

Lemma detail_numbers_present_witness :
  render_detail Sample.full_analysis = Ok Sample.full_detail
  /\ detail_pe Sample.full_detail = "28.5"
  /\ detail_debt_equity Sample.full_detail = "1.50"
  /\ detail_rvol Sample.full_detail = "1.25".
Proof.
  split; [reflexivity |].
  apply (detail_numbers_present Sample.full_analysis Sample.full_detail
           28.5 1.5 1.25); reflexivity.
Defined.

(** X4: in a detail layout that renders, a missing (or null) P/E and
    debt to equity show N/A and a missing relative volume shows 1.00. *)
Theorem detail_numbers_absent data d :
  render_detail data = Ok d ->
  Shape.absent (JS.path data ["details"; "financials"; "pe"]) = true ->
  Shape.absent (JS.path data ["details"; "financials"; "debt_equity"]) = true ->
  Shape.absent (JS.path data ["details"; "technicals"; "relative_volume"]) = true ->
  detail_pe d = "N/A" /\ detail_debt_equity d = "N/A" /\ detail_rvol d = "1.00".
Proof.
  intros Hd H1 H2 H3. cbn [JS.path fold_left] in *.
  unfold render_detail in Hd. unbind Hd. subst d.
  cbn [detail_pe detail_debt_equity detail_rvol].
  repeat match goal with
         | E : JS.optional_toFixed ?v _ = Ok ?x, H : Shape.absent ?v = true |- _ =>
             apply (optional_toFixed_absent _ _ _ H) in E; subst x
         end.
  cbn [JS.or_else JS.truthy] in *. resolve. auto.
Qed.

Lemma detail_numbers_absent_witness :
  render_detail Sample.sparse_analysis = Ok Sample.sparse_detail
  /\ detail_pe Sample.sparse_detail = "N/A"
  /\ detail_debt_equity Sample.sparse_detail = "N/A"
  /\ detail_rvol Sample.sparse_detail = "1.00".
Proof.
  split; [reflexivity |].
  apply (detail_numbers_absent Sample.sparse_analysis Sample.sparse_detail);
    reflexivity.
Defined.

(** X5: a ROE and a market cap that are [null], as distinct from
    missing, count as the number 0: the cells show 0.0% and 0.0B. *)
Theorem null_numbers_render_as_zero data d :
  render_detail data = Ok d ->
  JS.path data ["details"; "financials"; "roe"] = VNull ->
  JS.path data ["details"; "financials"; "market_cap"] = VNull ->
  detail_roe d = "0.0%" /\ detail_market_cap d = "0.0B".
Proof.
  intros Hd H1 H2. cbn [JS.path fold_left] in *.
  unfold render_detail in Hd. unbind Hd. subst d.
  cbn [detail_roe detail_market_cap].
  rewrite H1, H2 in *. unfold JS.times, JS.divided_by in *.
  cbn [JS.to_number rbind] in *. resolve.
  split; reflexivity.
Qed.

Lemma null_numbers_render_as_zero_witness :
  render_detail Scenario.null_analysis = Ok Scenario.null_detail
  /\ detail_roe Scenario.null_detail = "0.0%"
  /\ detail_market_cap Scenario.null_detail = "0.0B".
Proof.
  split; [reflexivity |].
  apply (null_numbers_render_as_zero Scenario.null_analysis Scenario.null_detail);
    reflexivity.
Defined.

(** ** Further properties of the detail modal *)

Lemma resume_shows (o : fetch_outcome) (w : world) :
  modalBody (dom (run (showStockDetail_resume o) w)) = shown_for o.
Proof.
  unfold showStockDetail_resume, showStockDetail_response, run, try_catch, bind.
  destruct o as [e | data]; simpl; [reflexivity |].
  unfold lift. destruct (render_detail data); reflexivity.
Qed.

Lemma showStockDetail_silent (symbol : value) (o : fetch_outcome) :
  preserves console (showStockDetail symbol o).
Proof.
  unfold showStockDetail, showStockDetail_open, showStockDetail_request,
    showStockDetail_response, showStockDetail_catch.
  frame.
Qed.

(** X6: for every well-formed analysis [showStockDetail] ends with the
    modal displayed and showing the layout of that analysis, never the
    error placeholder; the icons are created once and nothing is logged. *)
Theorem analysis_opens_layout (symbol : string) (data : value) (w : world) :
  Shape.StockAnalysis data = true ->
  exists d,
    render_detail data = Ok d
    /\ modal_part (dom (run (showStockDetail (VStr symbol) (Parsed data)) w))
       = ("block", Layout d)
    /\ icons (run (showStockDetail (VStr symbol) (Parsed data)) w) = S (icons w)
    /\ console (run (showStockDetail (VStr symbol) (Parsed data)) w) = console w.
Proof.
  intros H. destruct (render_detail_returns data H) as [d Hd].
  exists d. split; [exact Hd |].
  unfold showStockDetail, showStockDetail_request, showStockDetail_response.
  unfold run, try_catch, bind. simpl. unfold lift. rewrite Hd. simpl.
  repeat split.
Qed.

Lemma analysis_opens_layout_witness :
  Shape.StockAnalysis Sample.partial_analysis = true
  /\ exists d,
       render_detail Sample.partial_analysis = Ok d
       /\ modal_part (dom (run (showStockDetail (VStr "MSFT")
                                  (Parsed Sample.partial_analysis)) Sample.start))
          = ("block", Layout d)
       /\ icons (run (showStockDetail (VStr "MSFT")
                        (Parsed Sample.partial_analysis)) Sample.start) = 1%nat
       /\ console (run (showStockDetail (VStr "MSFT")
                          (Parsed Sample.partial_analysis)) Sample.start) = [].
Proof.
  split; [reflexivity |].
  apply (analysis_opens_layout "MSFT" Sample.partial_analysis Sample.start).
  reflexivity.
Defined.

(** X7: a response that is an object with none of the properties of an
    analysis (the body of an error response) is not taken for a failure:
    the modal shows a layout made of the fallbacks, with undefined for the
    symbol and the score, and nothing is logged. *)
Theorem unexpected_object_is_laid_out (symbol : string)
    (fields : list (string * value)) (w : world) :
  JS.lookup fields "details" = VUndef ->
  JS.lookup fields "symbol" = VUndef ->
  JS.lookup fields "score" = VUndef ->
  JS.lookup fields "passed_financials" = VUndef ->
  modalBody (dom (run (showStockDetail (VStr symbol) (Parsed (VObj fields))) w))
  = Layout unexpected_detail
  /\ console (run (showStockDetail (VStr symbol) (Parsed (VObj fields))) w)
     = console w.
Proof.
  intros H1 H2 H3 H4.
  assert (Hd : render_detail (VObj fields) = Ok unexpected_detail).
  { unfold render_detail. cbn [JS.get]. rewrite H1, H2, H3, H4. reflexivity. }
  rewrite showStockDetail_phases, resume_shows. unfold shown_for. rewrite Hd.
  split; [reflexivity |].
  exact (showStockDetail_silent (VStr symbol) (Parsed (VObj fields)) w).
Qed.

Lemma unexpected_object_is_laid_out_witness :
  modalBody (dom (run (showStockDetail (VStr "AAPL") (Parsed Sample.error_body))
                      Sample.start))
  = Layout unexpected_detail
  /\ console (run (showStockDetail (VStr "AAPL") (Parsed Sample.error_body))
                  Sample.start) = [].
Proof.
  apply (unexpected_object_is_laid_out "AAPL"
           [("detail", VStr "Internal Server Error")] Sample.start);
    reflexivity.
Defined.

(** X8: when a second symbol is opened while the first is loading, both
    requests are out, and the modal ends showing the response that arrives
    last, whichever symbol it answers: a late response to the first
    opening replaces the second symbol's content. *)
Theorem last_response_wins (first second : string) (o1 o2 : fetch_outcome)
    (w : world) :
  let opened := run (showStockDetail_begin (VStr second))
                    (run (showStockDetail_begin (VStr first)) w) in
  modalBody (dom (run (showStockDetail_resume o1)
                      (run (showStockDetail_resume o2) opened)))
    = modalBody (dom (run (showStockDetail (VStr first) o1) w))
  /\ modalBody (dom (run (showStockDetail_resume o2)
                         (run (showStockDetail_resume o1) opened)))
     = modalBody (dom (run (showStockDetail (VStr second) o2) w))
  /\ requests opened
     = (requests w ++ [("GET", String.append "/api/analyze/" first);
                       ("GET", String.append "/api/analyze/" second)])%list.
Proof.
  intros opened. rewrite !showStockDetail_phases, !resume_shows.
  repeat split. unfold opened. simpl. rewrite <- app_assoc. reflexivity.
Qed.

(** X9: a response that arrives after the modal was closed, by the
    close control or by a click on the backdrop, fills the body and leaves
    the modal hidden. *)
Theorem late_response_does_not_reopen (symbol : string) (o : fetch_outcome)
    (on_backdrop : bool) (w : world) :
  let closed := run (if on_backdrop then window_onclick Backdrop
                     else close_modal_onclick)
                    (run (showStockDetail_begin (VStr symbol)) w) in
  stockModal_display (dom (run (showStockDetail_resume o) closed)) = "none"
  /\ modalBody (dom (run (showStockDetail_resume o) closed)) = shown_for o.
Proof.
  intros closed. split; [| apply resume_shows].
  etransitivity; [exact (resume_keeps_display o closed) |].
  unfold closed. destruct on_backdrop; reflexivity.
Qed.

(** ** Further properties of the status poll *)

Ltac steps :=
  repeat first
    [ rewrite bind_run
    | progress cbn [lift ret fetch_send fetch_receive update
               Dom.set_totalIndexed Dom.set_workerState Dom.set_scanning
               Dom.set_scanProgressText Dom.set_stocksGrid
               Dom.set_opportunityCount Dom.set_display Dom.set_modalBody
               JS.elements JS.call_split_first JS.to_string] ].

Lemma split_space_nonempty (s : string) : JS.split_space s <> [].
Proof.
  destruct s; simpl; [discriminate |].
  destruct (Ascii.eqb a " "); [discriminate |].
  destruct (JS.split_space s); discriminate.
Qed.

(** [fetchHome_try] on a response with a [db_status] string [s], up to
    the first read that is not known. *)
Ltac poll s Hs known :=
  unfold fetchHome_try, fetch_json, first_piece;
  steps; rewrite Hs; steps;
  let E := fresh "E" in
  destruct (JS.split_space s) as [| ? ?] eqn:E;
  [destruct (split_space_nonempty s E) |];
  steps; repeat (known; steps).

Lemma fetchHome_try_scanning (data worker is_running : value) (s : string)
    (w : world) :
  JS.get data "db_status" = Ok (VStr s) ->
  JS.get data "worker" = Ok worker ->
  JS.get worker "is_running" = Ok is_running ->
  JS.truthy is_running = true ->
  fetchHome_try (Parsed data) w
  = (Ok tt,
     {| dom := {| totalIndexed := first_piece s; workerState := "SCANNING";
                  workerState_scanning := true;
                  scanProgressText := "Stock Analysis in Progress...";
                  stocksGrid := stocksGrid (dom w);
                  opportunityCount := opportunityCount (dom w);
                  stockModal_display := stockModal_display (dom w);
                  modalBody := modalBody (dom w) |};
        console := console w;
        requests := (requests w ++ [("GET", "/api/status")])%list;
        alerts := alerts w; icons := icons w |}).
Proof.
  intros Hs Hw Hr Ht.
  poll s Hs ltac:(first [rewrite Hw | rewrite Hr | rewrite Ht]).
  reflexivity.
Qed.

Lemma fetchHome_try_idle (data worker is_running : value) (s last_run : string)
    (w : world) :
  JS.get data "db_status" = Ok (VStr s) ->
  JS.get data "worker" = Ok worker ->
  JS.get worker "is_running" = Ok is_running ->
  JS.truthy is_running = false ->
  JS.get worker "last_run" = Ok (VStr last_run) ->
  fetchHome_try (Parsed data) w
  = (Ok tt,
     {| dom := {| totalIndexed := first_piece s; workerState := "IDLE";
                  workerState_scanning := false;
                  scanProgressText := "Last run: " ++ last_run;
                  stocksGrid := stocksGrid (dom w);
                  opportunityCount := opportunityCount (dom w);
                  stockModal_display := stockModal_display (dom w);
                  modalBody := modalBody (dom w) |};
        console := console w;
        requests := (requests w ++ [("GET", "/api/status")])%list;
        alerts := alerts w; icons := icons w |}).
Proof.
  intros Hs Hw Hr Ht Hl.
  poll s Hs ltac:(first [rewrite Hw | rewrite Hr | rewrite Ht | rewrite Hl
                        | progress cbn [JS.call_includes]]).
  reflexivity.
Qed.

Lemma fetchHome_try_unreadable (data worker is_running last_run : value)
    (s : string) (e : exn) (w : world) :
  JS.get data "db_status" = Ok (VStr s) ->
  JS.get data "worker" = Ok worker ->
  JS.get worker "is_running" = Ok is_running ->
  JS.truthy is_running = false ->
  JS.get worker "last_run" = Ok last_run ->
  JS.call_includes last_run = Throw e ->
  fetchHome_try (Parsed data) w
  = (Throw e,
     {| dom := {| totalIndexed := first_piece s; workerState := "IDLE";
                  workerState_scanning := workerState_scanning (dom w);
                  scanProgressText := scanProgressText (dom w);
                  stocksGrid := stocksGrid (dom w);
                  opportunityCount := opportunityCount (dom w);
                  stockModal_display := stockModal_display (dom w);
                  modalBody := modalBody (dom w) |};
        console := console w;
        requests := (requests w ++ [("GET", "/api/status")])%list;
        alerts := alerts w; icons := icons w |}).
Proof.
  intros Hs Hw Hr Ht Hl He.
  poll s Hs ltac:(first [rewrite Hw | rewrite Hr | rewrite Ht | rewrite Hl
                        | rewrite He]).
  reflexivity.
Qed.

(** X10: a status whose worker is running shows SCANNING with the
    scanning marker and the progress text, beside the first piece of
    [db_status], and logs nothing; [last_run] is not read. *)
Theorem status_scanning (data worker is_running : value) (s : string) (w : world) :
  JS.get data "db_status" = Ok (VStr s) ->
  JS.get data "worker" = Ok worker ->
  JS.get worker "is_running" = Ok is_running ->
  JS.truthy is_running = true ->
  status_part (dom (run (fetchHome (Parsed data)) w))
  = (first_piece s, "SCANNING", true, "Stock Analysis in Progress...")
  /\ console (run (fetchHome (Parsed data)) w) = console w.
Proof.
  intros Hs Hw Hr Ht. unfold fetchHome, run, try_catch.
  rewrite (fetchHome_try_scanning _ _ _ _ w Hs Hw Hr Ht). split; reflexivity.
Qed.

Lemma status_scanning_witness :
  status_part (dom (run (fetchHome (Parsed Scenario.scanning_status)) Sample.start))
  = ("5230", "SCANNING", true, "Stock Analysis in Progress...")
  /\ console (run (fetchHome (Parsed Scenario.scanning_status)) Sample.start) = [].
Proof.
  apply (status_scanning Scenario.scanning_status
           (VObj [("is_running", VBool true)]) (VBool true)
           "5230 stocks indexed" Sample.start); reflexivity.
Defined.

(** X11: a status whose worker is idle and reports its last run as a
    string shows IDLE without the scanning marker, and the last run as it
    came, behind the words Last run. *)
Theorem status_idle (data worker is_running : value) (s last_run : string)
    (w : world) :
  JS.get data "db_status" = Ok (VStr s) ->
  JS.get data "worker" = Ok worker ->
  JS.get worker "is_running" = Ok is_running ->
  JS.truthy is_running = false ->
  JS.get worker "last_run" = Ok (VStr last_run) ->
  status_part (dom (run (fetchHome (Parsed data)) w))
  = (first_piece s, "IDLE", false, String.append "Last run: " last_run)
  /\ console (run (fetchHome (Parsed data)) w) = console w.
Proof.
  intros Hs Hw Hr Ht Hl. unfold fetchHome, run, try_catch.
  rewrite (fetchHome_try_idle _ _ _ _ _ w Hs Hw Hr Ht Hl). split; reflexivity.
Qed.

Lemma status_idle_witness :
  status_part (dom (run (fetchHome (Parsed Sample.status)) Scenario.scanning))
  = ("5230", "IDLE", false, "Last run: Mon, 01 Jan 2024 10:00:00 GMT")
  /\ console (run (fetchHome (Parsed Sample.status)) Scenario.scanning) = [].
Proof.
  apply (status_idle Sample.status
           (VObj [("is_running", VBool false);
                  ("last_run", VStr "Mon, 01 Jan 2024 10:00:00 GMT")])
           (VBool false) "5230 stocks indexed"
           "Mon, 01 Jan 2024 10:00:00 GMT" Scenario.scanning); reflexivity.
Defined.

(** X12: a status whose worker is idle but whose [last_run] is neither a
    string nor an array is caught at line 17, after the state label was
    written: the label says IDLE while the scanning marker and the
    progress text stay what they were. *)
Theorem status_idle_without_last_run (data worker is_running last_run : value)
    (s : string) (e : exn) (w : world) :
  JS.get data "db_status" = Ok (VStr s) ->
  JS.get data "worker" = Ok worker ->
  JS.get worker "is_running" = Ok is_running ->
  JS.truthy is_running = false ->
  JS.get worker "last_run" = Ok last_run ->
  JS.call_includes last_run = Throw e ->
  status_part (dom (run (fetchHome (Parsed data)) w))
  = (first_piece s, "IDLE", workerState_scanning (dom w), scanProgressText (dom w))
  /\ console (run (fetchHome (Parsed data)) w)
     = (console w ++ [("Error fetching status:", e)])%list.
Proof.
  intros Hs Hw Hr Ht Hl He. unfold fetchHome, run, try_catch.
  rewrite (fetchHome_try_unreadable _ _ _ _ _ _ w Hs Hw Hr Ht Hl He).
  split; reflexivity.
Qed.

Lemma status_idle_without_last_run_witness :
  status_part (dom (run (fetchHome (Parsed Scenario.idle_status_without_last_run))
                        Scenario.scanning))
  = ("5230", "IDLE", true, "Stock Analysis in Progress...")
  /\ console (run (fetchHome (Parsed Scenario.idle_status_without_last_run))
                  Scenario.scanning)
     = [("Error fetching status:", TypeError)].
Proof.
  apply (status_idle_without_last_run Scenario.idle_status_without_last_run
           (VObj [("is_running", VBool false)]) (VBool false) VUndef
           "5230 stocks indexed" TypeError Scenario.scanning); reflexivity.
Defined.

(** ** Further properties of the page as a whole

    The three operations each write a part of the page of their own and
    read nothing of the rest. *)

Section Locality.

Context {X : Type} (part : page -> X).

Lemma local_ret {A : Type} (a : A) : depends_only_on part (ret a).
Proof. intros w1 w2 H. split; [reflexivity | exact H]. Qed.

Lemma local_lift {A : Type} (r : result A) : depends_only_on part (lift r).
Proof. intros w1 w2 H. split; [reflexivity | exact H]. Qed.

Lemma local_bind {A B : Type} (m : M A) (k : A -> M B) :
  depends_only_on part m -> (forall a, depends_only_on part (k a)) ->
  depends_only_on part (bind m k).
Proof.
  intros Hm Hk w1 w2 H. unfold bind. destruct (Hm w1 w2 H) as [Hr Hp].
  destruct (m w1) as [[a1 | e1] w1'], (m w2) as [[a2 | e2] w2'];
    simpl in *; try discriminate.
  - injection Hr as ->. apply Hk, Hp.
  - injection Hr as ->. split; [reflexivity | exact Hp].
Qed.

Lemma local_try_catch (body : M unit) (handler : exn -> M unit) :
  depends_only_on part body -> (forall e, depends_only_on part (handler e)) ->
  depends_only_on part (try_catch body handler).
Proof.
  intros Hb Hh w1 w2 H. unfold try_catch. destruct (Hb w1 w2 H) as [Hr Hp].
  destruct (body w1) as [[[] | e1] w1'], (body w2) as [[[] | e2] w2'];
    simpl in *; try discriminate.
  - split; [reflexivity | exact Hp].
  - injection Hr as ->. apply Hh, Hp.
Qed.

Lemma local_for_each (items : list value) (body : value -> M unit) :
  (forall x, depends_only_on part (body x)) ->
  depends_only_on part (for_each items body).
Proof.
  intros Hb. induction items as [| x rest IH]; simpl.
  - apply local_ret.
  - apply local_bind; auto.
Qed.

Lemma local_fetch_receive (o : fetch_outcome) :
  depends_only_on part (fetch_receive o).
Proof. destruct o; intros w1 w2 H; (split; [reflexivity | exact H]). Qed.

End Locality.

(** A write of the page: it returns the same everywhere, and the part is
    either the one it had or the one written. *)
Ltac local_write :=
  let w1 := fresh "w" in
  let w2 := fresh "w" in
  let H := fresh "H" in
  intros w1 w2 H; split; [reflexivity |];
  cbv [status_part scan_part modal_part] in *; simpl in *;
  try exact H; congruence.

Ltac local :=
  repeat first
    [ apply local_ret
    | apply local_lift
    | apply local_fetch_receive
    | apply local_bind; [| intros ?]
    | apply local_for_each; intros ?
    | apply local_try_catch; [| intros ?]
    | match goal with
      | |- depends_only_on _ (if ?b then _ else _) => destruct b
      | |- depends_only_on _ (match ?x with _ => _ end) => destruct x
      end
    | local_write ].

Lemma fetchHome_local (o : fetch_outcome) :
  depends_only_on status_part (fetchHome o).
Proof. unfold fetchHome, fetchHome_try, fetch_json, fetchHome_catch. local. Qed.

Lemma fetchStocks_local (argument : value) (o : fetch_outcome) :
  depends_only_on scan_part (fetchStocks argument o).
Proof. unfold fetchStocks, fetchStocks_try, fetch_json, fetchStocks_catch. local. Qed.

Lemma showStockDetail_local (symbol : value) (o : fetch_outcome) :
  depends_only_on modal_part (showStockDetail symbol o).
Proof.
  unfold showStockDetail, showStockDetail_open, showStockDetail_request,
    showStockDetail_response, showStockDetail_catch.
  local.
Qed.

Lemma page_parts (p q : page) :
  status_part p = status_part q -> scan_part p = scan_part q ->
  modal_part p = modal_part q -> p = q.
Proof.
  destruct p, q. unfold status_part, scan_part, modal_part. simpl.
  intros H1 H2 H3. congruence.
Qed.

Lemma fetchHome_frame (o : fetch_outcome) :
  preserves (fun w => (scan_part (dom w), modal_part (dom w), alerts w, icons w))
            (fetchHome o).
Proof. unfold fetchHome, fetchHome_try, fetch_json, fetchHome_catch. frame. Qed.

Lemma fetchStocks_frame (argument : value) (o : fetch_outcome) :
  preserves (fun w => (status_part (dom w), modal_part (dom w), alerts w, icons w))
            (fetchStocks argument o).
Proof. unfold fetchStocks, fetchStocks_try, fetch_json, fetchStocks_catch. frame. Qed.

Lemma showStockDetail_frame (symbol : value) (o : fetch_outcome) :
  preserves (fun w => (status_part (dom w), scan_part (dom w), alerts w, console w))
            (showStockDetail symbol o).
Proof.
  unfold showStockDetail, showStockDetail_open, showStockDetail_request,
    showStockDetail_response, showStockDetail_catch.
  frame.
Qed.

(** X13: whatever the response, the argument and the page, the status poll
    leaves the grid, the count and the modal as they were, the scan leaves
    the status labels and the modal, and the detail view leaves the status
    labels, the grid and the count; none of the three raises an alert, the
    first two create no icons and the detail view logs nothing. *)
Theorem operations_write_their_own_part (o : fetch_outcome)
    (argument symbol : value) (w : world) :
  let polled := run (fetchHome o) w in
  let scanned := run (fetchStocks argument o) w in
  let opened := run (showStockDetail symbol o) w in
  (scan_part (dom polled) = scan_part (dom w)
   /\ modal_part (dom polled) = modal_part (dom w)
   /\ alerts polled = alerts w /\ icons polled = icons w)
  /\ (status_part (dom scanned) = status_part (dom w)
      /\ modal_part (dom scanned) = modal_part (dom w)
      /\ alerts scanned = alerts w /\ icons scanned = icons w)
  /\ (status_part (dom opened) = status_part (dom w)
      /\ scan_part (dom opened) = scan_part (dom w)
      /\ alerts opened = alerts w /\ console opened = console w).
Proof.
  intros polled scanned opened.
  pose proof (fetchHome_frame o w) as Fh.
  pose proof (fetchStocks_frame argument o w) as Fs.
  pose proof (showStockDetail_frame symbol o w) as Fm.
  cbv beta in Fh, Fs, Fm. unfold polled, scanned, opened, run.
  repeat split; congruence.
Qed.

(** Two computations that each depend on and write their own part of the
    page leave the same page in either order. *)
Lemma commute_on_parts {X Y Z : Type} (a : page -> X) (b : page -> Y)
    (c : page -> Z) (m1 m2 : M unit) :
  (forall p q, a p = a q -> b p = b q -> c p = c q -> p = q) ->
  depends_only_on a m1 ->
  (forall w, b (dom (run m1 w)) = b (dom w)) ->
  (forall w, c (dom (run m1 w)) = c (dom w)) ->
  depends_only_on b m2 ->
  (forall w, a (dom (run m2 w)) = a (dom w)) ->
  (forall w, c (dom (run m2 w)) = c (dom w)) ->
  forall w, dom (run m2 (run m1 w)) = dom (run m1 (run m2 w)).
Proof.
  intros ext L1 B1 C1 L2 A2 C2 w. apply ext.
  - rewrite A2. symmetry. apply (L1 (run m2 w) w). apply A2.
  - rewrite B1. apply (L2 (run m1 w) w). apply B1.
  - rewrite C2, C1, C1, C2. reflexivity.
Qed.

Ltac kept F :=
  let w := fresh "w" in
  let K := fresh "K" in
  intros w; pose proof (F w) as K; unfold run; simpl in K; congruence.

(** X14: the page ends the same in whichever order the responses of two
    different operations are handled: status poll and scan, status poll
    and detail view, scan and detail view, each with any response. *)
Theorem operations_commute (o1 o2 o3 : fetch_outcome) (argument symbol : value)
    (w : world) :
  dom (run (fetchStocks argument o2) (run (fetchHome o1) w))
  = dom (run (fetchHome o1) (run (fetchStocks argument o2) w))
  /\ dom (run (showStockDetail symbol o3) (run (fetchHome o1) w))
     = dom (run (fetchHome o1) (run (showStockDetail symbol o3) w))
  /\ dom (run (showStockDetail symbol o3) (run (fetchStocks argument o2) w))
     = dom (run (fetchStocks argument o2) (run (showStockDetail symbol o3) w)).
Proof.
  pose proof (fetchHome_frame o1) as Fh.
  pose proof (fetchStocks_frame argument o2) as Fs.
  pose proof (showStockDetail_frame symbol o3) as Fm.
  split; [| split].
  - apply (commute_on_parts status_part scan_part modal_part);
      [ intros p q; apply page_parts | apply fetchHome_local | kept Fh | kept Fh
      | apply fetchStocks_local | kept Fs | kept Fs ].
  - apply (commute_on_parts status_part modal_part scan_part);
      [ intros p q ? ? ?; apply page_parts; assumption
      | apply fetchHome_local | kept Fh | kept Fh
      | apply showStockDetail_local | kept Fm | kept Fm ].
  - apply (commute_on_parts scan_part modal_part status_part);
      [ intros p q ? ? ?; apply page_parts; assumption
      | apply fetchStocks_local | kept Fs | kept Fs
      | apply showStockDetail_local | kept Fm | kept Fm ].
Qed.

(** *** Handling the same response again *)

Section Blindness.

Context {X : Type} (observe : page -> X).

Lemma blind_ret {A : Type} (a : A) : blind observe (ret a).
Proof. intros w1 w2. split; [reflexivity | left; split; reflexivity]. Qed.

Lemma blind_lift {A : Type} (r : result A) : blind observe (lift r).
Proof. intros w1 w2. split; [reflexivity | left; split; reflexivity]. Qed.

Lemma blind_fetch_receive (o : fetch_outcome) : blind observe (fetch_receive o).
Proof.
  destruct o; intros w1 w2; (split; [reflexivity | left; split; reflexivity]).
Qed.

Lemma blind_bind {A B : Type} (m : M A) (k : A -> M B) :
  blind observe m -> (forall a, blind observe (k a)) -> blind observe (bind m k).
Proof.
  intros Hm Hk w1 w2. unfold bind. destruct (Hm w1 w2) as [Hr Hp].
  destruct (m w1) as [[a1 | e1] w1'], (m w2) as [[a2 | e2] w2'];
    simpl in *; try discriminate.
  - injection Hr as ->. destruct (Hk a2 w1' w2') as [Hr' Hp'].
    split; [exact Hr' |].
    destruct Hp as [[H1 H2] | H], Hp' as [[H1' H2'] | H'].
    + left. split; congruence.
    + right. exact H'.
    + right. congruence.
    + right. exact H'.
  - injection Hr as ->. split; [reflexivity | exact Hp].
Qed.

Lemma blind_try_catch (body : M unit) (handler : exn -> M unit) :
  blind observe body -> (forall e, blind observe (handler e)) ->
  blind observe (try_catch body handler).
Proof.
  intros Hb Hh w1 w2. unfold try_catch. destruct (Hb w1 w2) as [Hr Hp].
  destruct (body w1) as [[[] | e1] w1'], (body w2) as [[[] | e2] w2'];
    simpl in *; try discriminate.
  - split; [reflexivity | exact Hp].
  - injection Hr as ->. destruct (Hh e2 w1' w2') as [Hr' Hp'].
    split; [exact Hr' |].
    destruct Hp as [[H1 H2] | H], Hp' as [[H1' H2'] | H'].
    + left. split; congruence.
    + right. exact H'.
    + right. congruence.
    + right. exact H'.
Qed.

Lemma blind_for_each (items : list value) (body : value -> M unit) :
  (forall x, blind observe (body x)) -> blind observe (for_each items body).
Proof.
  intros Hb. induction items as [| x rest IH]; simpl.
  - apply blind_ret.
  - apply blind_bind; auto.
Qed.

(** After a write that makes the observation the same in every world, a
    computation that depends on that observation alone keeps it so. *)
Lemma blind_after_reset {A : Type} (reset : M unit) (k : unit -> M A) :
  (forall w1 w2, fst (reset w1) = Ok tt
                 /\ observe (dom (snd (reset w1))) = observe (dom (snd (reset w2)))) ->
  depends_only_on observe (k tt) ->
  blind observe (bind reset k).
Proof.
  intros Hr Hk w1 w2. unfold bind.
  destruct (Hr w1 w2) as [H1 Ho]. destruct (Hr w2 w1) as [H2 _].
  destruct (reset w1) as [[[] | e1] w1'], (reset w2) as [[[] | e2] w2'];
    simpl in *; try discriminate.
  destruct (Hk w1' w2' Ho) as [Hres Hobs].
  split; [exact Hres | right; exact Hobs].
Qed.

(** Running a blind computation again changes nothing it observes. *)
Lemma blind_idempotent (m : M unit) (w : world) :
  blind observe m ->
  observe (dom (run m (run m w))) = observe (dom (run m w)).
Proof.
  intros H. destruct (H (run m w) w) as [_ [[H1 _] | H1]]; exact H1.
Qed.

End Blindness.

Ltac blind_write :=
  let w1 := fresh "w" in
  let w2 := fresh "w" in
  intros w1 w2; split; [reflexivity |];
  first [ left; split; reflexivity | right; reflexivity ].

Ltac blindly :=
  repeat first
    [ apply blind_ret
    | apply blind_lift
    | apply blind_fetch_receive
    | apply blind_bind; [| intros ?]
    | apply blind_try_catch; [| intros ?]
    | match goal with
      | |- blind _ (if ?b then _ else _) => destruct b
      | |- blind _ (match ?x with _ => _ end) => destruct x
      end
    | blind_write ].

Lemma fetchHome_again (o : fetch_outcome) (w : world) :
  dom (run (fetchHome o) (run (fetchHome o) w)) = dom (run (fetchHome o) w).
Proof.
  assert (B1 : blind totalIndexed (fetchHome o))
    by (unfold fetchHome, fetchHome_try, fetch_json, fetchHome_catch; blindly).
  assert (B2 : blind workerState (fetchHome o))
    by (unfold fetchHome, fetchHome_try, fetch_json, fetchHome_catch; blindly).
  assert (B3 : blind workerState_scanning (fetchHome o))
    by (unfold fetchHome, fetchHome_try, fetch_json, fetchHome_catch; blindly).
  assert (B4 : blind scanProgressText (fetchHome o))
    by (unfold fetchHome, fetchHome_try, fetch_json, fetchHome_catch; blindly).
  pose proof (fetchHome_frame o) as F.
  apply page_parts.
  - unfold status_part.
    rewrite (blind_idempotent _ _ w B1), (blind_idempotent _ _ w B2),
      (blind_idempotent _ _ w B3), (blind_idempotent _ _ w B4).
    reflexivity.
  - pose proof (F (run (fetchHome o) w)) as K. unfold run in *. congruence.
  - pose proof (F (run (fetchHome o) w)) as K. unfold run in *. congruence.
Qed.

Lemma fetchStocks_blind_grid (argument : value) (o : fetch_outcome) :
  blind stocksGrid (fetchStocks argument o).
Proof.
  unfold fetchStocks, fetchStocks_try, fetch_json, fetchStocks_catch.
  apply blind_try_catch; [| intros ?; blindly].
  apply blind_bind; [blindly | intros url].
  apply blind_bind; [blindly | intros data].
  apply blind_after_reset.
  - intros w1 w2. split; reflexivity.
  - local.
Qed.

Lemma fetchStocks_blind_count (argument : value) (o : fetch_outcome) :
  blind opportunityCount (fetchStocks argument o).
Proof.
  unfold fetchStocks, fetchStocks_try, fetch_json, fetchStocks_catch.
  repeat first [ apply blind_for_each; intros ? | progress blindly ].
Qed.

(** X15: handling the same response a second time makes the page what the
    first time made it, for the status poll, for the scan (the grid is
    emptied before it is filled, so no card is doubled) and for the detail
    view, whatever the response and the page before. *)
Theorem rendering_again_changes_nothing (o : fetch_outcome)
    (argument symbol : value) (w : world) :
  dom (run (fetchHome o) (run (fetchHome o) w)) = dom (run (fetchHome o) w)
  /\ dom (run (fetchStocks argument o) (run (fetchStocks argument o) w))
     = dom (run (fetchStocks argument o) w)
  /\ dom (run (showStockDetail symbol o) (run (showStockDetail symbol o) w))
     = dom (run (showStockDetail symbol o) w).
Proof.
  split; [apply fetchHome_again | split].
  - pose proof (fetchStocks_frame argument o) as F.
    apply page_parts.
    + pose proof (F (run (fetchStocks argument o) w)) as K.
      unfold run in *. congruence.
    + unfold scan_part.
      rewrite (blind_idempotent _ _ w (fetchStocks_blind_grid argument o)),
        (blind_idempotent _ _ w (fetchStocks_blind_count argument o)).
      reflexivity.
    + pose proof (F (run (fetchStocks argument o) w)) as K.
      unfold run in *. congruence.
  - pose proof (showStockDetail_frame symbol o) as F.
    assert (B1 : blind stockModal_display (showStockDetail symbol o))
      by (unfold showStockDetail, showStockDetail_open, showStockDetail_request,
            showStockDetail_response, showStockDetail_catch; blindly).
    assert (B2 : blind modalBody (showStockDetail symbol o))
      by (unfold showStockDetail, showStockDetail_open, showStockDetail_request,
            showStockDetail_response, showStockDetail_catch; blindly).
    apply page_parts.
    + pose proof (F (run (showStockDetail symbol o) w)) as K.
      unfold run in *. congruence.
    + pose proof (F (run (showStockDetail symbol o) w)) as K.
      unfold run in *. congruence.
    + unfold modal_part.
      rewrite (blind_idempotent _ _ w B1), (blind_idempotent _ _ w B2).
      reflexivity.
Qed.

(** ** Further properties of the scan *)

Lemma to_number_of_stringable (v : value) (t : string) :
  JS.to_string v = Ok t -> exists x, JS.to_number v = Ok x.
Proof.
  intros H. destruct v; try (eexists; reflexivity);
    unfold JS.to_number; rewrite H; eexists; reflexivity.
Qed.

Lemma get_anything (v : value) (key : string) (x : value) :
  JS.get v key = Ok x -> forall key', JS.get v key' = Ok (JS.field v key').
Proof. destruct v; simpl; try discriminate; reflexivity. Qed.

(** An entry that renders has a score the comparison of line 42 accepts:
    the card's template has made a string of it. *)
Lemma rendered_entry_is_countable (stock : value) (c : card) :
  render_card stock = Ok c -> exists b, is_opportunity stock = Ok b.
Proof.
  intros H. unfold render_card in H.
  apply rbind_ok in H. destruct H as (d & Hd & H).
  pose proof (get_anything _ _ _ Hd "score") as Hs.
  unbind H. unfold is_opportunity, JS.ge. rewrite Hs. cbn [rbind].
  match goal with
  | E : JS.to_string (JS.field stock "score") = Ok _ |- _ =>
      destruct (to_number_of_stringable _ _ E) as [x ->]
  end.
  eexists. reflexivity.
Qed.

Lemma rendered_entries_are_countable (items : list value) (cards : list card) :
  Forall2 (fun s c => render_card s = Ok c) items cards ->
  exists kept, JS.array_filter is_opportunity items = Ok kept.
Proof.
  induction 1 as [| s c items cards Hs _ [kept IH]]; simpl.
  - eexists. reflexivity.
  - destruct (rendered_entry_is_countable _ _ Hs) as [b ->]. rewrite IH.
    eexists. reflexivity.
Qed.

(** The loop of lines 44-80 appends the cards of the entries that render,
    in order, before it goes on with the rest. *)
Lemma for_each_appends (good : list value) (cards : list card)
    (rest : list value) (w : world) :
  Forall2 (fun s c => render_card s = Ok c) good cards ->
  exists w',
    for_each (good ++ rest) card_body w = for_each rest card_body w'
    /\ stocksGrid (dom w') = (stocksGrid (dom w) ++ cards)%list
    /\ opportunityCount (dom w') = opportunityCount (dom w)
    /\ console w' = console w.
Proof.
  intros H. revert w. induction H as [| s c good cards Hs _ IH]; intros w.
  - exists w. split; [reflexivity |].
    split; [symmetry; apply app_nil_r | split; reflexivity].
  - simpl app. simpl for_each. rewrite bind_run.
    unfold card_body at 1. rewrite bind_run. unfold lift at 1. rewrite Hs.
    cbn [Dom.set_stocksGrid update].
    match goal with
    | |- context [for_each (good ++ rest) card_body ?w1] =>
        destruct (IH w1) as (w' & Hrun & Hgrid & Hcount & Hlog)
    end.
    exists w'. split; [exact Hrun |].
    rewrite Hgrid, Hcount, Hlog. simpl. rewrite <- app_assoc.
    split; [reflexivity | split; reflexivity].
Qed.

(** [fetchStocks_try] up to the loop, when line 42 goes through. *)
Lemma fetchStocks_try_steps (argument data : value) (items kept : list value)
    (w : world) :
  filter_state argument = true ->
  JS.get data "results" = Ok (VArr items) ->
  JS.array_filter is_opportunity items = Ok kept ->
  exists w',
    fetchStocks_try (default_minScore argument) (Parsed data) w
    = for_each items card_body w'
    /\ stocksGrid (dom w') = []
    /\ opportunityCount (dom w')
       = JSNumber.toString (JS.number_of_nat (List.length kept))
    /\ console w' = console w.
Proof.
  intros Hf Hr Hk. destruct (filter_state_url _ Hf) as [url Hurl].
  unfold fetchStocks_try, fetch_json.
  steps. rewrite Hurl. steps. rewrite Hr. steps. rewrite Hk. steps.
  eexists. split; [reflexivity |]. split; [| split]; reflexivity.
Qed.

(** X16: when every entry of the response renders, the grid after the
    scan is the cards of the response, in the response's order, whatever
    the grid held before, and nothing is logged. *)
Theorem scan_rebuilds_grid (argument data : value) (items : list value)
    (cards : list card) (w : world) :
  filter_state argument = true ->
  JS.get data "results" = Ok (VArr items) ->
  Forall2 (fun s c => render_card s = Ok c) items cards ->
  stocksGrid (dom (run (fetchStocks argument (Parsed data)) w)) = cards
  /\ console (run (fetchStocks argument (Parsed data)) w) = console w.
Proof.
  intros Hf Hr Hc.
  destruct (rendered_entries_are_countable _ _ Hc) as [kept Hk].
  destruct (fetchStocks_try_steps _ _ _ _ w Hf Hr Hk)
    as (w1 & Hrun & Hgrid & _ & Hlog).
  destruct (for_each_appends items cards [] w1 Hc)
    as (w2 & Hloop & Hgrid2 & _ & Hlog2).
  rewrite app_nil_r in Hloop. simpl in Hloop.
  unfold fetchStocks, run, try_catch. rewrite Hrun, Hloop. simpl.
  rewrite Hgrid2, Hgrid, Hlog2, Hlog. auto.
Qed.

Lemma scan_rebuilds_grid_witness :
  stocksGrid (dom (run (fetchStocks VUndef (Parsed Sample.scan)) Sample.rendered))
  = Scenario.scan_cards
  /\ console (run (fetchStocks VUndef (Parsed Sample.scan)) Sample.rendered) = [].
Proof.
  apply (scan_rebuilds_grid VUndef Sample.scan
           [Sample.entry "AAPL" 80; Sample.entry "TSLA" 74;
            Sample.entry "MSFT" 75; Sample.entry "NVDA" 90]
           Scenario.scan_cards Sample.rendered);
    [reflexivity | reflexivity |].
  repeat (constructor; [reflexivity |]). constructor.
Defined.

(** X17: when the count of line 42 goes through and an entry does not
    render, the loop stops there: the grid holds the cards of the entries
    before it and none of those after it, the count is the one of the whole
    response, and the error is logged. *)
Theorem scan_stops_at_unrenderable_entry (argument data : value)
    (good rest kept : list value) (bad : value) (cards : list card) (e : exn)
    (w : world) :
  filter_state argument = true ->
  JS.get data "results" = Ok (VArr (good ++ bad :: rest)) ->
  JS.array_filter is_opportunity (good ++ bad :: rest) = Ok kept ->
  Forall2 (fun s c => render_card s = Ok c) good cards ->
  render_card bad = Throw e ->
  stocksGrid (dom (run (fetchStocks argument (Parsed data)) w)) = cards
  /\ opportunityCount (dom (run (fetchStocks argument (Parsed data)) w))
     = JSNumber.toString (JS.number_of_nat (List.length kept))
  /\ console (run (fetchStocks argument (Parsed data)) w)
     = (console w ++ [("Error fetching stocks:", e)])%list.
Proof.
  intros Hf Hr Hk Hc Hb.
  destruct (fetchStocks_try_steps _ _ _ _ w Hf Hr Hk)
    as (w1 & Hrun & Hgrid & Hcount & Hlog).
  destruct (for_each_appends good cards (bad :: rest) w1 Hc)
    as (w2 & Hloop & Hgrid2 & Hcount2 & Hlog2).
  assert (Hstop : for_each (bad :: rest) card_body w2 = (Throw e, w2)).
  { simpl. rewrite bind_run. unfold card_body at 1. rewrite bind_run.
    unfold lift at 1. rewrite Hb. reflexivity. }
  unfold fetchStocks, run, try_catch. rewrite Hrun, Hloop, Hstop.
  unfold fetchStocks_catch, console_error. simpl.
  rewrite Hgrid2, Hgrid, Hcount2, Hcount, Hlog2, Hlog. auto.
Qed.

Lemma scan_stops_at_unrenderable_entry_witness :
  stocksGrid (dom (run (fetchStocks VUndef (Parsed Scenario.broken_scan))
                       Sample.rendered))
  = [Scenario.card_of "AAPL" "80" "AAPL"]
  /\ opportunityCount (dom (run (fetchStocks VUndef (Parsed Scenario.broken_scan))
                                Sample.rendered)) = "3"
  /\ console (run (fetchStocks VUndef (Parsed Scenario.broken_scan))
                  Sample.rendered)
     = [("Error fetching stocks:", TypeError)].
Proof.
  apply (scan_stops_at_unrenderable_entry VUndef Scenario.broken_scan
           [Sample.entry "AAPL" 80] [Sample.entry "MSFT" 75]
           [Sample.entry "AAPL" 80; Scenario.unrenderable; Sample.entry "MSFT" 75]
           Scenario.unrenderable [Scenario.card_of "AAPL" "80" "AAPL"]
           TypeError Sample.rendered);
    try reflexivity.
  repeat (constructor; [reflexivity |]). constructor.
Defined.

(** X18: when the count of line 42 throws (the response has no [results],
    [results] is no array, or an entry has no readable score), the grid
    has been emptied already and stays empty, the count keeps its text,
    and the error is logged. *)
Theorem scan_without_results_empties_grid (argument data : value) (e : exn)
    (w : world) :
  filter_state argument = true ->
  (let* results := JS.get data "results" in
   let* items := JS.elements results in
   JS.array_filter is_opportunity items) = Throw e ->
  stocksGrid (dom (run (fetchStocks argument (Parsed data)) w)) = []
  /\ opportunityCount (dom (run (fetchStocks argument (Parsed data)) w))
     = opportunityCount (dom w)
  /\ console (run (fetchStocks argument (Parsed data)) w)
     = (console w ++ [("Error fetching stocks:", e)])%list.
Proof.
  intros Hf He. destruct (filter_state_url _ Hf) as [url Hurl].
  unfold fetchStocks, run, try_catch, fetchStocks_try, fetch_json.
  steps. rewrite Hurl. steps.
  destruct (JS.get data "results") as [results | e1]; cbn [rbind] in He;
    [| injection He as ->; steps; repeat split].
  steps.
  destruct (JS.elements results) as [items | e2]; cbn [rbind] in He;
    [| injection He as ->; steps; repeat split].
  steps. rewrite He. steps. repeat split.
Qed.

Lemma scan_without_results_empties_grid_witness :
  stocksGrid (dom (run (fetchStocks VUndef (Parsed Scenario.holed_scan))
                       Sample.rendered)) = []
  /\ opportunityCount (dom (run (fetchStocks VUndef (Parsed Scenario.holed_scan))
                                Sample.rendered)) = "3"
  /\ console (run (fetchStocks VUndef (Parsed Scenario.holed_scan))
                  Sample.rendered)
     = [("Error fetching stocks:", TypeError)].
Proof.
  apply (scan_without_results_empties_grid VUndef Scenario.holed_scan
           TypeError Sample.rendered); reflexivity.
Defined.

(** *** The card's click *)

(** X19: a click on the card of an entry whose symbol is a string opens
    the modal and requests the analysis of that symbol, the one the card
    shows. *)
Theorem card_click_requests_its_symbol (stock : value) (c : card)
    (symbol : string) (o : fetch_outcome) (w : world) :
  render_card stock = Ok c ->
  JS.field stock "symbol" = VStr symbol ->
  card_symbol c = symbol
  /\ requests (run (card_click c o) w)
     = (requests w ++ [("GET", String.append "/api/analyze/" symbol)])%list
  /\ stockModal_display (dom (run (card_click c o) w)) = "block".
Proof.
  intros Hc Hs. unfold render_card in Hc. unbind Hc. subst c.
  unfold card_click. cbn [card_onclick card_symbol]. rewrite Hs in *.
  resolve. split; [reflexivity |].
  rewrite showStockDetail_phases.
  pose proof (resume_keeps_display o
                (run (showStockDetail_begin (VStr symbol)) w)) as Kd.
  assert (Kr : preserves requests (showStockDetail_resume o))
    by (unfold showStockDetail_resume, showStockDetail_response,
          showStockDetail_catch; frame).
  specialize (Kr (run (showStockDetail_begin (VStr symbol)) w)).
  unfold run in *. rewrite Kr, Kd. split; reflexivity.
Qed.

Lemma card_click_requests_its_symbol_witness :
  card_symbol (Scenario.card_of "AAPL" "80" "AAPL") = "AAPL"
  /\ requests (run (card_click (Scenario.card_of "AAPL" "80" "AAPL")
                               (Parsed Sample.sparse_analysis)) Sample.rendered)
     = [("GET", "/api/scan?limit=50&min_score=0"); ("GET", "/api/analyze/AAPL")]
  /\ stockModal_display
       (dom (run (card_click (Scenario.card_of "AAPL" "80" "AAPL")
                             (Parsed Sample.sparse_analysis)) Sample.rendered))
     = "block".
Proof.
  apply (card_click_requests_its_symbol (Sample.entry "AAPL" 80)
           (Scenario.card_of "AAPL" "80" "AAPL") "AAPL"
           (Parsed Sample.sparse_analysis) Sample.rendered); reflexivity.
Defined.

(** ** Further properties of the update button *)

Lemma fetchHome_requests (o : fetch_outcome) (w : world) :
  requests (run (fetchHome o) w) = (requests w ++ [("GET", "/api/status")])%list.
Proof.
  unfold fetchHome. rewrite run_try_catch.
  assert (H : requests (snd (fetchHome_try o w))
              = (requests w ++ [("GET", "/api/status")])%list).
  { unfold fetchHome_try, fetch_json.
    match goal with
    | |- requests (snd (bind (bind (fetch_send ?m ?u) ?k1) ?k2 w)) = _ =>
        change (bind (bind (fetch_send m u) k1) k2 w)
          with (bind (k1 tt) k2 (snd (fetch_send m u w)))
    end.
    match goal with
    | |- requests (snd (?m ?w1)) = _ =>
        assert (F : preserves requests m) by frame; rewrite F
    end.
    reflexivity. }
  destruct (fst _); [exact H |].
  unfold run, fetchHome_catch, console_error. simpl. exact H.
Qed.

(** X20: a click on the update button sends the POST; when it is
    rejected the handler ends there, with no alert, no status request and
    the page as it was; when it is answered, with whatever status, the
    alert is raised once, the status is requested after the POST, the page
    becomes what a status poll makes of it, and the handler never rejects. *)
Theorem update_button (o : fetch_outcome) (w : world) :
  (fst (updateDbBtn_onclick false o w) = Throw NetworkError
   /\ dom (run (updateDbBtn_onclick false o) w) = dom w
   /\ alerts (run (updateDbBtn_onclick false o) w) = alerts w
   /\ console (run (updateDbBtn_onclick false o) w) = console w
   /\ requests (run (updateDbBtn_onclick false o) w)
      = (requests w ++ [("POST", "/api/update-db")])%list)
  /\ (fst (updateDbBtn_onclick true o w) = Ok tt
      /\ dom (run (updateDbBtn_onclick true o) w) = dom (run (fetchHome o) w)
      /\ alerts (run (updateDbBtn_onclick true o) w)
         = (alerts w ++ ["Escaneo en segundo plano iniciado."])%list
      /\ requests (run (updateDbBtn_onclick true o) w)
         = (requests w ++ [("POST", "/api/update-db"); ("GET", "/api/status")])%list).
Proof.
  split; [repeat split |].
  unfold updateDbBtn_onclick, run.
  repeat (rewrite bind_run; cbn [fetch_send ret alert]).
  match goal with
  | |- context [fetchHome o {| dom := ?d; console := ?c; requests := ?r;
                               alerts := ?a; icons := ?i |}] =>
      set (w1 := {| dom := d; console := c; requests := r;
                    alerts := a; icons := i |})
  end.
  split; [apply never_rejects |].
  split; [| split].
  - assert (L : depends_only_on (fun p => p) (fetchHome o)).
    { unfold fetchHome, fetchHome_try, fetch_json, fetchHome_catch. local. }
    apply (L w1 w). reflexivity.
  - assert (Fa : preserves alerts (fetchHome o))
      by (unfold fetchHome, fetchHome_try, fetch_json, fetchHome_catch; frame).
    exact (Fa w1).
  - pose proof (fetchHome_requests o w1) as R. unfold run in R. rewrite R.
    unfold w1. simpl. rewrite <- app_assoc. reflexivity.
Qed.

(** ** Further properties of the fallbacks *)

Lemma toString_nonempty (x : float) : JSNumber.toString x <> "".
Proof.
  unfold JSNumber.toString. destruct (Prim2SF x) as [s | s | | s m e].
  - discriminate.
  - destruct s; discriminate.
  - discriminate.
  - apply append_nonempty_r, toString_pos_nonempty.
Qed.

Lemma text_cell_nonempty (v : value) (fallback s : string) :
  Shape.optional Shape.is_string v = true -> fallback <> "" ->
  JS.to_string (JS.or_else v (VStr fallback)) = Ok s -> s <> "".
Proof.
  unfold JS.or_else. intros Hv Hf.
  destruct (JS.truthy v) eqn:E; destruct v; simpl in *; try discriminate;
    intros H; injection H as <-; try exact Hf.
  destruct s0; [discriminate | discriminate].
Qed.

Lemma number_cell_nonempty (v : value) (fallback : float) (s : string) :
  Shape.optional Shape.is_number v = true ->
  JS.to_string (JS.or_else v (VNum fallback)) = Ok s -> s <> "".
Proof.
  unfold JS.or_else. intros Hv.
  destruct (JS.truthy v) eqn:E; destruct v; simpl in *; try discriminate;
    intros H; injection H as <-; apply toString_nonempty.
Qed.

Lemma fixed_cell_nonempty (v x : value) (fallback : float) (f : nat) (s : string) :
  Shape.optional Shape.is_number v = true ->
  JS.call_toFixed (JS.or_else v (VNum fallback)) f = Ok x ->
  JS.to_string x = Ok s -> s <> "".
Proof.
  unfold JS.or_else. intros Hv.
  destruct (JS.truthy v) eqn:E; destruct v; simpl in *; try discriminate;
    intros H; injection H as <-; simpl; intros H; injection H as <-;
    apply toFixed_nonempty.
Qed.

Lemma optional_fixed_cell_nonempty (v x : value) (fallback : string) (f : nat)
    (s : string) :
  Shape.optional Shape.is_number v = true -> fallback <> "" ->
  JS.optional_toFixed v f = Ok x ->
  JS.to_string (JS.or_else x (VStr fallback)) = Ok s -> s <> "".
Proof.
  intros Hv Hf.
  destruct v; simpl in *; try discriminate;
    intros H; injection H as <-;
    try (unfold JS.or_else; simpl; intros H; injection H as <-; exact Hf).
  rewrite or_else_toFixed. simpl. intros H. injection H as <-.
  apply toFixed_nonempty.
Qed.

Lemma score_cell_nonempty (v : value) (s : string) :
  Shape.is_number v = true -> JS.to_string v = Ok s -> s <> "".
Proof.
  destruct v; simpl; try discriminate. intros _ H. injection H as <-.
  apply toString_nonempty.
Qed.

(** A cell is not empty by the lemma of its interpolation. *)
Ltac cell :=
  first
    [ eapply score_cell_nonempty; [| eassumption]; eassumption
    | eapply text_cell_nonempty; [| | eassumption]; [eassumption | discriminate]
    | eapply number_cell_nonempty; [| eassumption]; eassumption
    | eapply fixed_cell_nonempty; [| | eassumption]; [| eassumption]; eassumption
    | eapply optional_fixed_cell_nonempty; [| | | eassumption];
      [| | eassumption]; [eassumption | discriminate]
    | apply append_nonempty_r; discriminate ].

(** X21: on the data model no cell of a card or of a detail layout is
    ever empty, the symbol apart (an empty symbol shows as it is): a field
    that is missing, [null], zero or the empty string shows its fallback,
    and a number that is there shows its digits. *)
Theorem fallbacks_leave_no_cell_empty (stock data : value) (c : card)
    (d : detail) :
  Shape.StockSummary stock = true -> Shape.StockAnalysis data = true ->
  render_card stock = Ok c -> render_detail data = Ok d ->
  (card_score c <> "" /\ card_sector c <> "" /\ card_finScore c <> ""
   /\ card_rvol c <> "" /\ card_trend c <> "")
  /\ (detail_score d <> "" /\ detail_sector d <> "" /\ detail_outlook d <> ""
      /\ detail_rvol d <> "" /\ detail_trend d <> "" /\ detail_stability d <> ""
      /\ detail_pe d <> "" /\ detail_debt_equity d <> "" /\ detail_roe d <> ""
      /\ detail_market_cap d <> "" /\ detail_banner d <> "").
Proof.
  intros Hs Ha Hc Hd. split.
  - destruct stock; try discriminate. unfold Shape.StockSummary in Hs.
    apply andb_prop in Hs. destruct Hs as [Hs Hdet].
    apply andb_prop in Hs. destruct Hs as [_ Hscore].
    apply StockDetails_parts in Hdet. destruct Hdet as (Ht & _ & Hf).
    have_field Ht "relative_volume". have_field Ht "trend".
    have_field Hf "sector". have_field Hf "score".
    unfold render_card in Hc. unbind Hc. subst c.
    cbn [card_score card_sector card_finScore card_rvol card_trend].
    repeat split; cell.
  - unfold Shape.StockAnalysis in Ha. apply andb_prop in Ha. destruct Ha as [Ha _].
    destruct data; try discriminate. unfold Shape.StockSummary in Ha.
    apply andb_prop in Ha. destruct Ha as [Ha Hdet].
    apply andb_prop in Ha. destruct Ha as [_ Hscore].
    apply StockDetails_parts in Hdet. destruct Hdet as (Ht & Hi & Hf).
    have_field Ht "relative_volume". have_field Ht "trend".
    have_field Hi "outlook".
    have_field Hf "sector". have_field Hf "stability". have_field Hf "pe".
    have_field Hf "debt_equity".
    unfold render_detail in Hd. unbind Hd. subst d.
    cbn [detail_score detail_sector detail_outlook detail_rvol detail_trend
         detail_stability detail_pe detail_debt_equity detail_roe
         detail_market_cap detail_banner].
    repeat split; try cell.
    destruct (JS.truthy _); discriminate.
Qed.

Lemma fallbacks_leave_no_cell_empty_witness :
  (card_score Sample.zero_card <> "" /\ card_sector Sample.zero_card <> ""
   /\ card_finScore Sample.zero_card <> "" /\ card_rvol Sample.zero_card <> ""
   /\ card_trend Sample.zero_card <> "")
  /\ (detail_score Sample.zero_detail <> "" /\ detail_sector Sample.zero_detail <> ""
      /\ detail_outlook Sample.zero_detail <> ""
      /\ detail_rvol Sample.zero_detail <> "" /\ detail_trend Sample.zero_detail <> ""
      /\ detail_stability Sample.zero_detail <> ""
      /\ detail_pe Sample.zero_detail <> ""
      /\ detail_debt_equity Sample.zero_detail <> ""
      /\ detail_roe Sample.zero_detail <> ""
      /\ detail_market_cap Sample.zero_detail <> ""
      /\ detail_banner Sample.zero_detail <> "").
Proof.
  apply (fallbacks_leave_no_cell_empty Sample.zero_summary Sample.zero_analysis
           Sample.zero_card Sample.zero_detail); reflexivity.
Defined.
